(** * highresmerge.py: merging a high resolution topography with a low
    resolution bathymetry

    A shallow embedding of [src/highresmerge.py] and the properties of its
    four stages: [slice_region], [interpolate], [wipeout_topo], [overlay].

    Conventions of the embedding.
    - A text file is the list of its lines and a line is the list of its
      whitespace separated tokens, which is what
      [[n for n in line.split()] for line in infile.readlines()] yields.
      Tokens are strings: [overlay] and [wipeout_topo] never convert them
      to numbers when they store them.
    - The file system is a finite map from paths to files.
    - A Python exception is a value of [exn]; a computation that may raise
      returns [res A]; a computation that also reads or writes files is a
      function from the file system to a result and the file system left
      behind ([io A]).
    - [for i in range(n)] is [for_each (seq 0 n)], threading the list that
      the loop body updates in place.
    - What the program prints on the standard output and what it plots is
      not modelled.
    - The functions of the libraries the program calls are parameters of
      the stages that call them: Python's [float] on a token,
      [scipy.interpolate.griddata], and the class [Topography] of
      [clawpack.geoclaw.topotools]. *)

From stdpp Require Import gmap strings list fin_maps pretty.
From Stdlib Require Import QArith Ascii Floats Uint63.

Local Open Scope nat_scope.
Local Open Scope string_scope.

(** ** Exceptions and results *)

Inductive exn : Type :=
| FileNotFoundError
| FileExistsError
| IndexError
| OverflowError
| ValueError (msg : string)
| LibraryError (msg : string).

Inductive res (A : Type) : Type :=
| Ok (a : A)
| Raise (e : exn).
Arguments Ok {A} a.
Arguments Raise {A} e.

Definition res_bind {A B : Type} (m : res A) (k : A -> res B) : res B :=
  match m with
  | Ok a => k a
  | Raise e => Raise e
  end.

Declare Scope res_scope.
Delimit Scope res_scope with res.
Notation "x <- m ;; k" := (res_bind m (fun x => k))
  (at level 100, m at next level, right associativity) : res_scope.
Local Open Scope res_scope.

Definition is_ok {A : Type} (m : res A) : bool :=
  match m with Ok _ => true | Raise _ => false end.

(** ** Python lists indexed by non-negative integers *)

(** [l[i]] raises [IndexError] out of range. *)
Definition getitem {A : Type} (l : list A) (i : nat) : res A :=
  match l !! i with
  | Some x => Ok x
  | None => Raise IndexError
  end.

(** [l[i] = x] raises [IndexError] out of range. *)
Definition setitem {A : Type} (l : list A) (i : nat) (x : A) : res (list A) :=
  if decide (i < length l) then Ok (<[i:=x]> l) else Raise IndexError.

(** [for i in idx: body], the body updating the state [s] or raising. *)
Fixpoint for_each {S : Type} (idx : list nat) (body : nat -> S -> res S)
    (s : S) : res S :=
  match idx with
  | [] => Ok s
  | i :: idx' =>
      match body i s with
      | Ok s' => for_each idx' body s'
      | Raise e => Raise e
      end
  end.

(** ** Files *)

Abbreviation line := (list string).
Abbreviation file := (list (list string)).

Definition io (A : Type) : Type := gmap string file -> res A * gmap string file.

Definition io_bind {A B : Type} (m : io A) (k : A -> io B) : io B :=
  fun fs =>
    match m fs with
    | (Ok a, fs') => k a fs'
    | (Raise e, fs') => (Raise e, fs')
    end.

Definition io_lift {A : Type} (m : res A) : io A := fun fs => (m, fs).

Declare Scope io_scope.
Delimit Scope io_scope with io.
Notation "x <- m ;; k" := (io_bind m (fun x => k))
  (at level 100, m at next level, right associativity) : io_scope.

(** [open(path, 'r')] followed by [readlines] and [split]. *)
Definition open_r (path : string) : io file :=
  fun fs =>
    match fs !! path with
    | Some f => (Ok f, fs)
    | None => (Raise FileNotFoundError, fs)
    end.

(** [open(path, 'x')] followed by the prints of the lines: exclusive
    creation, [FileExistsError] when the path exists. *)
Definition open_x (path : string) (f : file) : io unit :=
  fun fs =>
    match fs !! path with
    | Some _ => (Raise FileExistsError, fs)
    | None => (Ok tt, <[path := f]> fs)
    end.

(** [open(path, 'w')] followed by the writes: the file is created or
    truncated. The write itself is taken to complete (the directory
    exists, the disk is not full): what is proved of a run that writes is
    proved of a run whose writes complete. *)
Definition open_w (path : string) (f : file) : io unit :=
  fun fs => (Ok tt, <[path := f]> fs).

(** ** overlay *)

(** The loop of [overlay] (lines 114 to 117) on the token rows of the two
    files. The rows of [data_topo] are distinct lists, so that the update
    of a cell is the update of its row in the list of the rows. *)
Definition overlay_cells (nan_value : string) (data_bathy : file)
    (data_topo : file) : res file :=
  for_each (seq 0 (length data_topo)) (fun i data_topo =>
    row <- getitem data_topo i;;
    for_each (seq 0 (length row)) (fun j data_topo =>
      row <- getitem data_topo i;;
      t <- getitem row j;;
      if String.eqb t nan_value then
        brow <- getitem data_bathy i;;
        b <- getitem brow (j + 20);;
        row' <- setitem row j b;;
        setitem data_topo i row'
      else Ok data_topo) data_topo) data_topo.

Definition overlay (topo_filename bathy_filename outfile nan_value : string)
    : io unit :=
  (data_bathy <- open_r bathy_filename;;
   data_topo <- open_r topo_filename;;
   data_topo <- io_lift (overlay_cells nan_value data_bathy data_topo);;
   open_x outfile data_topo)%io.

Definition overlay_default_nan_value : string := "-9.9990000e+03".

(** ** Python floats and the arguments of [interpolate] *)

(** A Python float is not-a-number, an infinity or a finite binary64 value,
    which is a rational number. *)
Inductive pyfloat : Type :=
| Fnan
| Finf (negative : bool)
| Ffin (q : Q).

(** [f >= 0] on floats: false on NaN, true on [-0.0]. *)
Definition float_ge0 (f : pyfloat) : bool :=
  match f with
  | Fnan => false
  | Finf negative => negb negative
  | Ffin q => Qle_bool 0 q
  end.

(** [int(f)]: truncation toward zero; [ValueError] on NaN and
    [OverflowError] on the infinities. *)
Definition int_of_float (f : pyfloat) : res Z :=
  match f with
  | Fnan => Raise (ValueError "cannot convert float NaN to integer")
  | Finf _ => Raise OverflowError
  | Ffin q => Ok (Z.quot (Qnum q) (Z.pos (Qden q)))
  end.

(** The values [interpolate] may receive for [res_in] and [res_out]. *)
Inductive pyval : Type :=
| PyInt (z : Z)
| PyFloat (f : pyfloat)
| PyBool (b : bool)
| PyStr (s : string)
| PyNone.

Definition msg_integers : string := "Resolutions must be integers.".
Definition msg_invalid : string := "Invalid resolution.".
Definition msg_order : string :=
  "Resolutions measured in arcseconds. resolution_in must be a larger integer than resolution_out.".

(** Lines 164 to 172 of [interpolate]: the three checks in their order.
    The usage line printed before each raise goes to the standard output,
    which is not modelled. *)
Definition check_resolutions (res_in res_out : pyval) : res (Z * Z) :=
  match res_in, res_out with
  | PyInt a, PyInt b =>
      if (a <? 1)%Z || (b <? 1)%Z then Raise (ValueError msg_invalid)
      else if (a <? b)%Z then Raise (ValueError msg_order)
      else Ok (a, b)
  | _, _ => Raise (ValueError msg_integers)
  end.

(** [for x in l: f x] collecting the results, as a list comprehension
    does; the first element that raises ends it. *)
Fixpoint mapM {A B : Type} (f : A -> res B) (l : list A) : res (list B) :=
  match l with
  | [] => Ok []
  | x :: l' => y <- f x;; ys <- mapM f l';; Ok (y :: ys)
  end.

(** [np.hstack] of the array of the rows: the rows one after the other;
    [ValueError] when there is no row at all. (For rows of unequal
    lengths this is NumPy before 1.24, where the array of the rows is an
    array of lists; the properties below are about rows of one length.) *)
Definition hstack (data : list (list Z)) : res (list Z) :=
  match data with
  | [] => Raise (ValueError "need at least one array to concatenate")
  | _ => Ok (concat data)
  end.

(** The positions are binary64 numbers, computed as NumPy computes them.
    A count becomes a float exactly (below [2 ^ 53]). *)
Definition float_of_nat (n : nat) : float :=
  PrimFloat.of_uint63 (Uint63.of_Z (Z.of_nat n)).

(** [np.linspace(0, stop, num)]: the position [k] is [k * step + 0] with
    [step = stop / (num - 1)], each operation rounded; the last position
    is then set to [stop] itself; the single position of [num = 1] is
    [0 * stop + 0]. *)
Definition linspace (stop num : nat) : list float :=
  let step := PrimFloat.div (float_of_nat stop) (float_of_nat (num - 1)) in
  map (fun k =>
         if (num =? 1)%nat then
           PrimFloat.add (PrimFloat.mul (float_of_nat k) (float_of_nat stop))
                         (float_of_nat 0)
         else if (k =? num - 1)%nat then float_of_nat stop
         else PrimFloat.add (PrimFloat.mul (float_of_nat k) step)
                            (float_of_nat 0))
      (seq 0 num).

(** One axis of [np.mgrid[0:stop:complex(num)]]: the position [k] is
    [k * step + 0] with [step = stop / (num - 1)], and [step = 1] when
    [num] is 1; the last position is computed as the others are. *)
Definition mgrid_axis (stop num : nat) : list float :=
  let step :=
    if (num =? 1)%nat then float_of_nat 1
    else PrimFloat.div (float_of_nat stop) (float_of_nat (num - 1)) in
  map (fun k =>
         PrimFloat.add (PrimFloat.mul (float_of_nat k) step) (float_of_nat 0))
      (seq 0 num).

(** The sample positions built on lines 195 to 200: row-major, as the
    nested loops append them. *)
Definition sample_points (x y : nat) : list (float * float) :=
  i ← linspace x x; j ← linspace y y; [(i, j)].

(** [np.mgrid] on line 202: the query positions, one row per position of
    the first axis. *)
Definition mgrid (x y nx ny : nat) : list (list (float * float)) :=
  map (fun u => map (fun v => (u, v)) (mgrid_axis y ny)) (mgrid_axis x nx).

Section Stages.

(** Python's [float] on a token: the float it denotes, or [ValueError]. *)
Variable float_of_str : string -> res pyfloat.

(** *** wipeout_topo *)

(** The loop of [wipeout_topo] (lines 138 to 141). *)
Definition wipeout_cells (val : string) (data : file) : res file :=
  for_each (seq 0 (length (drop 7 data))) (fun i data =>
    row <- getitem data (i + 7);;
    for_each (seq 0 (length row)) (fun j data =>
      row <- getitem data (i + 7);;
      t <- getitem row j;;
      f <- float_of_str t;;
      if float_ge0 f then
        row' <- setitem row j val;;
        setitem data (i + 7) row'
      else Ok data) data) data.

Definition wipeout_topo (filename outfile val : string) : io unit :=
  (data <- open_r filename;;
   data <- io_lift (wipeout_cells val data);;
   open_x outfile data)%io.

(** *** interpolate *)

(** The values [griddata] returns and their text under [np.savetxt]'s
    default format. *)
Variable V : Type.
Variable fmt : V -> string.

(** [scipy.interpolate.griddata(points, values, xi, method="linear")]:
    it builds the piecewise linear interpolant of the samples, which may
    raise, and evaluates it at each query position. *)
Variable griddata_linear : list (float * float) -> list Z -> res (float * float -> V).

(** [int(float(n))] on line 181. *)
Definition int_float (n : string) : res Z :=
  f <- float_of_str n;; int_of_float f.

(** Lines 181 to 204: from the token rows below the header to the
    interpolated array. *)
Definition parse_data (rows : file) : res (list (list Z)) :=
  mapM (mapM int_float) rows.

Definition resample (scale : Z) (data : list (list Z)) : res (list (list V)) :=
  values <- hstack data;;
  let x := length data in
  row0 <- getitem data 0;;
  let y := length row0 in
  let points := sample_points x y in
  let xi := mgrid x y (x * Z.to_nat scale) (y * Z.to_nat scale) in
  ip <- griddata_linear points values;;
  Ok (map (map ip) xi).

Definition interpolate (in_filename : string) (res_in : pyval)
    (out_filename : string) (res_out : pyval) : io unit :=
  (r <- io_lift (check_resolutions res_in res_out);;
   data <- open_r in_filename;;
   let header := take 6 data in
   let data := drop 6 data in
   data <- io_lift (parse_data data);;
   let scale := (fst r / snd r)%Z in
   grid <- io_lift (resample scale data);;
   open_w out_filename (header ++ map (map fmt) grid)%list)%io.

End Stages.

(** ** slice_region *)

Section Slice.

(** [clawpack.geoclaw.topotools.Topography] and the four methods
    [slice_region] calls: [read] and [write] with [topo_type=3] (here on
    the contents of the file), [crop] and the [extent] property. A
    region is a list [[xlower, xupper, ylower, yupper]]. [write] is taken
    to complete, as the writes of the other stages are. *)
Variable Topography : Type.
Variable region : Type.
Variable topo_read : file -> res Topography.
Variable topo_crop : Topography -> region -> res Topography.
Variable topo_extent : Topography -> region.
Variable topo_write : Topography -> file.

(** Lines 51 to 60: the two shorelines and their plot; no file is
    touched. *)
Variable plot_shores : Topography -> Topography -> res unit.

Definition read_topography (filename : string) : io Topography :=
  (f <- open_r filename;; io_lift (topo_read f))%io.

Definition slice_region (topo_outfile bathy_outfile bathy_filename
    topo_filename : string) (shore_plots : bool) (filter : region)
    : io unit :=
  (topo_file <- read_topography topo_filename;;
   bathy_file <- read_topography bathy_filename;;
   bathy_small <- io_lift (topo_crop bathy_file filter);;
   topo_small <- io_lift (topo_crop topo_file (topo_extent bathy_small));;
   _ <- io_lift (if shore_plots then plot_shores topo_small bathy_small
                 else Ok tt);;
   _ <- open_w bathy_outfile (topo_write bathy_small);;
   open_w topo_outfile (topo_write topo_small))%io.

End Slice.

(** ** Decimal literals

    [float_of_literal] reads the tokens the grids are written with: an
    optional sign, digits with an optional point, an optional exponent,
    and the words [nan] and [inf]. It gives the exact value of the
    literal, which is the value of Python's [float] on it whenever that
    value is a binary64 number, as it is for every token used below. *)

Definition digit_of (a : ascii) : option Z :=
  let n := nat_of_ascii a in
  if (48 <=? n)%nat && (n <=? 57)%nat then Some (Z.of_nat (n - 48)) else None.

Fixpoint digits_of (acc : Z) (s : list ascii) : option Z :=
  match s with
  | [] => Some acc
  | a :: s' =>
      match digit_of a with
      | Some d => digits_of (10 * acc + d)%Z s'
      | None => None
      end
  end.

(** A non-empty run of digits. *)
Definition number_of (s : list ascii) : option Z :=
  match s with
  | [] => None
  | _ => digits_of 0%Z s
  end.

Definition nat_literal (s : string) : option nat :=
  Z.to_nat <$> number_of (String.list_ascii_of_string s).

Fixpoint split_on (c1 c2 : ascii) (s : list ascii)
    : list ascii * option (list ascii) :=
  match s with
  | [] => ([], None)
  | a :: s' =>
      if Ascii.eqb a c1 || Ascii.eqb a c2 then ([], Some s')
      else let '(l, r) := split_on c1 c2 s' in (a :: l, r)
  end.

Definition signed (s : list ascii) : bool * list ascii :=
  match s with
  | a :: s' =>
      if Ascii.eqb a "-" then (true, s')
      else if Ascii.eqb a "+" then (false, s')
      else (false, s)
  | [] => (false, [])
  end.

Definition exponent_of (s : option (list ascii)) : option Z :=
  match s with
  | None => Some 0%Z
  | Some e =>
      let '(negative, ds) := signed e in
      (fun n => if negative then (- n)%Z else n) <$> number_of ds
  end.

(** [m * 10 ^ e] as a fraction. *)
Definition scale10 (m e : Z) : Q :=
  match e with
  | Z.neg p => Qmake m (10 ^ p)%positive
  | _ => Qmake (m * 10 ^ e)%Z 1
  end.

Definition float_of_literal (tok : string) : res pyfloat :=
  let '(negative, body) := signed (String.list_ascii_of_string tok) in
  if bool_decide (body = String.list_ascii_of_string "nan") then Ok Fnan
  else if bool_decide (body = String.list_ascii_of_string "inf") then
    Ok (Finf negative)
  else
    let '(mantissa, e) := split_on "e" "E" body in
    let '(ip, fp) := split_on "." "." mantissa in
    let fp := default [] fp in
    match number_of (ip ++ fp), exponent_of e with
    | Some m, Some e =>
        let m := if negative then (- m)%Z else m in
        Ok (Ffin (scale10 m (e - Z.of_nat (length fp))))
    | _, _ => Raise (ValueError "could not convert string to float")
    end.

(** ** Rasters: six header lines and the grid below them *)

Definition cell {A : Type} (d : list (list A)) (i j : nat) : option A :=
  row ← d !! i; row !! j.

(** The count a header line declares for [key]: the line is the key and
    a number, in either order. *)
Definition declares (key : string) (l : line) : option nat :=
  match l with
  | [a; b] =>
      if String.eqb b key then nat_literal a
      else if String.eqb a key then nat_literal b
      else None
  | _ => None
  end.

Definition header_count (key : string) (header : list line) : option nat :=
  head (omap (declares key) header).

(** The header's row and column counts are the dimensions of the grid. *)
Definition consistent (header : list line) {A : Type} (grid : list (list A))
    : Prop :=
  header_count "nrows" header = Some (length grid) /\
  exists c, header_count "ncols" header = Some c /\
            Forall (fun row => length row = c) grid.

(** ** What one iteration of the loops does to a cell *)

Definition overlay_cell (nan_value : string) (data_bathy : file)
    (i j : nat) (t : string) : res string :=
  if String.eqb t nan_value then
    brow <- getitem data_bathy i;; getitem brow (j + 20)
  else Ok t.

Definition wipeout_cell (float_of_str : string -> res pyfloat)
    (val : string) (i j : nat) (t : string) : res string :=
  f <- float_of_str t;; Ok (if float_ge0 f then val else t).

Definition cell_step (g : nat -> nat -> string -> res string) (i j : nat)
    (d : file) : res file :=
  row <- getitem d i;;
  t <- getitem row j;;
  t' <- g i j t;;
  row' <- setitem row j t';;
  setitem d i row'.

Definition row_step (g : nat -> nat -> string -> res string) (i : nat)
    (d : file) : res file :=
  row <- getitem d i;;
  for_each (seq 0 (length row)) (cell_step g i) d.

(** The list of the results of [h k x] for the elements [x] at positions
    [k] of [l], counted from [k0]. *)
Fixpoint imapM {A B : Type} (h : nat -> A -> res B) (k0 : nat) (l : list A)
    : res (list B) :=
  match l with
  | [] => Ok []
  | x :: l' => y <- h k0 x;; ys <- imapM h (S k0) l';; Ok (y :: ys)
  end.

(** The rows from [off] on, each cell [(i, j)] holding [t] replaced by the
    result of [g i j t]. *)
Definition update_grid (g : nat -> nat -> string -> res string) (off : nat)
    (d : file) : res file :=
  imapM (fun i row => imapM (g i) 0 row) off d.

(** The shape of a grid of tokens: the lengths of its rows. *)
Definition shape (d : file) : list nat := map length d.

(** Truncation toward zero, stated on its own: [z] is the integer part of
    [q]. *)
Definition truncation (q : Q) (z : Z) : Prop :=
  (0 <= q -> inject_Z z <= q < inject_Z z + 1)%Q /\
  (q <= 0 -> inject_Z z - 1 < q <= inject_Z z)%Q.

(** ** Exactness at the sample positions *)



(** ** Stand-ins for the library functions, to run the stages *)





(** An interpolant that is constant: the value of the first sample,
    whatever the position. *)
Definition griddata_first (points : list (float * float)) (values : list Z)
    : res (float * float -> Z) :=
  match values with
  | [] => Raise (LibraryError "QhullError")
  | v :: _ => Ok (fun _ => v)
  end.

Definition fmt_Z (v : Z) : string := pretty v.

(** An interpolant that tells whether the first sample is positive,
    written as one of two numbers. *)
Definition griddata_sign (points : list (float * float)) (values : list Z)
    : res (float * float -> bool) :=
  Ok (fun _ => bool_decide (0 < hd 0 values)%Z).

Definition fmt_sign (v : bool) : string := if v then "7" else "-7".

(** ** The errors of the resolution checks *)

Definition invalid_resolution (e : exn) : Prop :=
  e = ValueError msg_integers \/ e = ValueError msg_invalid \/
  e = ValueError msg_order.

(** A positive whole number: a Python [int] that is at least 1. *)
Definition positive_whole (v : pyval) : Prop :=
  exists z, v = PyInt z /\ (1 <= z)%Z.

(** [res_in < res_out], which would be a downsampling. *)
Definition downsampling (res_in res_out : pyval) : Prop :=
  exists a b, res_in = PyInt a /\ res_out = PyInt b /\ (a < b)%Z.

(** ** Example inputs *)

(** A topography row of 21 cells whose first cell is the no-data value,
    and a bathymetry row of 21 cells, ["100"] to ["120"]. *)
Definition topo_row21 : line :=
  overlay_default_nan_value :: map pretty (seq 1 20).
Definition bathy_row21 : line := map pretty (seq 100 21).

Definition fs_overlay : gmap string file :=
  {[ "topo.tt3" := [topo_row21]; "bathy.tt3" := [bathy_row21] ]}.

(** The scenario of the specification: two grids of two rows and two
    columns. *)
Definition topo_2x2 : file := [["1"; "-9999"]; ["-9999"; "4"]].
Definition bathy_2x2 : file := [["10"; "20"]; ["30"; "40"]].

Definition fs_2x2 : gmap string file :=
  {[ "topo.tt3" := topo_2x2; "bathy.tt3" := bathy_2x2 ]}.

(** A raster file of six header lines and two grid lines. *)
Definition header_1x2 : file :=
  [["2"; "ncols"]; ["1"; "nrows"]; ["140"; "xlower"]; ["35"; "ylower"];
   ["1"; "cellsize"]; ["-9999"; "nodata_value"]].

Definition raster_wipe : file := (header_1x2 ++ [["5"; "-3"]; ["7"; "-1"]])%list.

Definition fs_wipe : gmap string file := {[ "interpolated.tt3" := raster_wipe ]}.

(** A raster of two rows and two columns with its header, and a file
    system that holds it, with and without a file at the output path. *)
Definition header_2x2 : file :=
  [["2"; "ncols"]; ["2"; "nrows"]; ["140"; "xlower"]; ["35"; "ylower"];
   ["1"; "cellsize"]; ["-9999"; "nodata_value"]].

Definition rows_2x2 : file := [["1"; "2.5"]; ["-3.75"; "4"]].

Definition fs_interp : gmap string file :=
  {[ "bathy.tt3" := (header_2x2 ++ rows_2x2)%list ]}.

Definition fs_interp_out : gmap string file :=
  <["fine.tt3" := [["an"; "earlier"; "run"]]]> fs_interp.

(** The values of [rows_2x2] and their integer parts. *)
Definition values_2x2 : list (list Q) := [[1 # 1; 25 # 10]; [-375 # 100; 4 # 1]]%Q.
Definition samples_2x2 : list (list Z) := [[1; 2]; [-3; 4]]%Z.

(** A stand-in for [Topography], to run [slice_region]: a profile, each
    cell a coordinate and a value, read from and written to lines of two
    tokens; a region is a pair of bounds; [crop] keeps the cells between
    the bounds and [extent] is the first and the last coordinate. *)
Definition profile : Type := list (nat * string).

Definition profile_read (f : file) : res profile :=
  mapM (fun l : line =>
          match l with
          | [x; v] =>
              match nat_literal x with
              | Some n => Ok (n, v)
              | None => Raise (ValueError "not a coordinate")
              end
          | _ => Raise (ValueError "not a cell")
          end) f.

Definition profile_crop (t : profile) (r : nat * nat) : res profile :=
  Ok (List.filter (fun c => (fst r <=? fst c)%nat && (fst c <=? snd r)%nat) t).

Definition profile_extent (t : profile) : nat * nat :=
  (hd 0 (map fst t), List.last (map fst t) 0).

Definition profile_write (t : profile) : file :=
  map (fun c => [pretty (fst c); snd c]) t.

Definition profile_plot (t b : profile) : res unit := Ok tt.

Definition fs_slice : gmap string file :=
  {[ "srtm.asc" := [["0"; "-9999"]; ["1"; "-9999"]; ["2"; "-9999"];
                    ["3"; "12"]; ["4"; "40"]; ["5"; "55"]; ["6"; "63"]];
     "etopo.tt3" := [["0"; "-900"]; ["2"; "-300"]; ["4"; "35"]; ["6"; "60"]] ]}.

(** The file system of [fs_overlay] with a file at the output path. *)
Definition fs_overlay_out : gmap string file :=
  <["merged.tt3" := [["an"; "earlier"; "run"]]]> fs_overlay.

(** The file system of [fs_wipe] with a file at the output path. *)
Definition fs_wipe_out : gmap string file :=
  <["wiped.tt3" := [["an"; "earlier"; "run"]]]> fs_wipe.

(** [raster_wipe] once masked with ["-2"]. *)
Definition raster_wiped : file :=
  (header_1x2 ++ [["5"; "-3"]; ["-2"; "-1"]])%list.

(** A file that is a header and nothing else, and a raster with a token
    that is not a number. *)
Definition fs_header_only : gmap string file := {[ "bathy.tt3" := header_2x2 ]}.

Definition fs_nan : gmap string file :=
  {[ "bathy.tt3" := (header_2x2 ++ [["1"; "nan"]; ["3"; "4"]])%list ]}.

(** A raster of six header lines and two grid lines, as its header
    declares, and a file system that holds it. *)
Definition raster_two_rows : file :=
  (header_2x2 ++ [["5"; "-3"]; ["7"; "-1"]])%list.

Definition fs_two_rows : gmap string file :=
  {[ "interpolated.tt3" := raster_two_rows ]}.

(** * Properties *)

(** ** Loops that update the cells of a grid in place *)

Lemma for_each_ext {S : Type} (idx : list nat) (b1 b2 : nat -> S -> res S) s :
  (forall i s', b1 i s' = b2 i s') ->
  for_each idx b1 s = for_each idx b2 s.
Proof.
  intros Hb. revert s. induction idx as [|i idx IH]; intros s; simpl; [done|].
  rewrite Hb. destruct (b2 i s); [apply IH | done].
Qed.

Lemma getitem_Some {A : Type} (l : list A) i x :
  l !! i = Some x -> getitem l i = Ok x.
Proof. unfold getitem. by intros ->. Qed.

Lemma getitem_None {A : Type} (l : list A) i :
  l !! i = None -> getitem l i = Raise IndexError.
Proof. unfold getitem. by intros ->. Qed.

Lemma setitem_lt {A : Type} (l : list A) i x :
  i < length l -> setitem l i x = Ok (<[i:=x]> l).
Proof. unfold setitem. intros H. by rewrite decide_True. Qed.

Lemma setitem_same {A : Type} (l : list A) i x :
  l !! i = Some x -> setitem l i x = Ok l.
Proof.
  intros H. rewrite setitem_lt; [|by eapply lookup_lt_Some].
  by rewrite list_insert_id.
Qed.

Section CellLoops.

Variable g : nat -> nat -> string -> res string.

Lemma inner_loop i (suf pre : line) (d : file) :
  d !! i = Some (pre ++ suf)%list ->
  for_each (seq (length pre) (length suf)) (cell_step g i) d =
  (suf' <- imapM (g i) (length pre) suf;; Ok (<[i := (pre ++ suf')%list]> d)).
Proof.
  revert pre d. induction suf as [|t suf IH]; intros pre d Hd; simpl.
  - by rewrite list_insert_id.
  - unfold cell_step at 1. rewrite (getitem_Some _ _ _ Hd). simpl.
    rewrite (getitem_Some (pre ++ t :: suf) (length pre) t);
      [|by rewrite list_lookup_middle].
    simpl. destruct (g i (length pre) t) as [t'|e]; simpl; [|done].
    rewrite setitem_lt; [|rewrite length_app; simpl; lia]. simpl.
    rewrite setitem_lt; [|by eapply lookup_lt_Some].
    replace (<[length pre:=t']> (pre ++ t :: suf))%list
      with ((pre ++ [t']) ++ suf)%list.
    2:{ rewrite insert_app_r_alt; [|lia]. rewrite Nat.sub_diag. simpl.
        by rewrite <- app_assoc. }
    specialize (IH (pre ++ [t'])%list
                   (<[i:=((pre ++ [t']) ++ suf)%list]> d)).
    rewrite length_app in IH. simpl in IH.
    rewrite Nat.add_1_r in IH. rewrite IH.
    2:{ apply list_lookup_insert_eq. by eapply lookup_lt_Some. }
    destruct (imapM (g i) (S (length pre)) suf) as [suf'|e]; simpl; [|done].
    rewrite list_insert_insert_eq. by rewrite <- app_assoc.
Qed.

Lemma row_step_spec i (row : line) (d : file) :
  d !! i = Some row ->
  row_step g i d = (row' <- imapM (g i) 0 row;; Ok (<[i := row']> d)).
Proof.
  intros Hd. unfold row_step. rewrite (getitem_Some _ _ _ Hd). simpl.
  by apply (inner_loop i row []).
Qed.

(** The loop over the rows [off], [off + 1], ... *)
Lemma outer_loop off (suf pre : file) k :
  length pre = k + off ->
  for_each (seq k (length suf)) (fun i d => row_step g (i + off) d)
           (pre ++ suf)%list =
  (suf' <- imapM (fun i row => imapM (g i) 0 row) (k + off) suf;;
   Ok (pre ++ suf')%list).
Proof.
  revert pre k. induction suf as [|row suf IH]; intros pre k Hk; simpl.
  - done.
  - rewrite (row_step_spec (k + off) row).
    2:{ rewrite <- Hk. by rewrite list_lookup_middle. }
    destruct (imapM (g (k + off)) 0 row) as [row'|e]; simpl; [|done].
    replace (<[k + off:=row']> (pre ++ row :: suf))%list
      with ((pre ++ [row']) ++ suf)%list.
    2:{ rewrite insert_app_r_alt; [|lia]. rewrite Hk, Nat.sub_diag. simpl.
        by rewrite <- app_assoc. }
    rewrite (IH (pre ++ [row'])%list (S k)).
    2:{ rewrite length_app. simpl. lia. }
    simpl.
    destruct (imapM _ (S (k + off)) suf) as [suf'|e]; simpl; [|done].
    by rewrite <- app_assoc.
Qed.

End CellLoops.

(** ** The results of [imapM] and [mapM], element by element *)

Lemma imapM_Ok_inv {A B : Type} (h : nat -> A -> res B) k l l' :
  imapM h k l = Ok l' ->
  length l' = length l /\
  forall n x, l !! n = Some x ->
    exists y, h (k + n) x = Ok y /\ l' !! n = Some y.
Proof.
  revert k l'. induction l as [|a l IH]; intros k l' H; simpl in H.
  - injection H as <-. split; [done|]. intros n x Hn. by destruct n.
  - destruct (h k a) as [y|e] eqn:Hy; simpl in H; [|done].
    destruct (imapM h (S k) l) as [ys|e] eqn:Hys; simpl in H; [|done].
    injection H as <-. destruct (IH _ _ Hys) as [Hlen Hall].
    split; [simpl; by rewrite Hlen|].
    intros [|n] x Hn; simpl in Hn.
    + injection Hn as <-. exists y. by rewrite Nat.add_0_r.
    + destruct (Hall n x Hn) as (y' & Hy' & Hl).
      exists y'. split; [|done]. by rewrite <- Nat.add_succ_comm.
Qed.

Lemma imapM_all_Ok {A B : Type} (h : nat -> A -> res B) k l :
  (forall n x, l !! n = Some x -> exists y, h (k + n) x = Ok y) ->
  exists l', imapM h k l = Ok l'.
Proof.
  revert k. induction l as [|a l IH]; intros k H; simpl.
  - by eexists.
  - destruct (H 0 a eq_refl) as [y Hy]. rewrite Nat.add_0_r in Hy.
    rewrite Hy. simpl.
    destruct (IH (S k)) as [ys Hys].
    { intros n x Hn. destruct (H (S n) x Hn) as [y' Hy'].
      exists y'. by rewrite Nat.add_succ_comm. }
    rewrite Hys. simpl. by eexists.
Qed.

Lemma imapM_Raise_inv {A B : Type} (h : nat -> A -> res B) k l e :
  imapM h k l = Raise e ->
  exists n x, l !! n = Some x /\ h (k + n) x = Raise e.
Proof.
  revert k. induction l as [|a l IH]; intros k H; simpl in H; [done|].
  destruct (h k a) as [y|e'] eqn:Hy; simpl in H.
  - destruct (imapM h (S k) l) as [ys|e'] eqn:Hys; simpl in H; [done|].
    injection H as ->. destruct (IH _ Hys) as (n & x & Hn & Hx).
    exists (S n), x. split; [done|]. by rewrite <- Nat.add_succ_comm.
  - injection H as ->. exists 0, a. by rewrite Nat.add_0_r.
Qed.

Lemma mapM_imapM {A B : Type} (f : A -> res B) k l :
  mapM f l = imapM (fun _ => f) k l.
Proof.
  revert k. induction l as [|a l IH]; intros k; simpl; [done|].
  destruct (f a); simpl; [|done]. by rewrite (IH (S k)).
Qed.

(** ** The loops of [overlay] and [wipeout_topo], cell by cell *)

Lemma overlay_body_cell_step nan_value data_bathy i j d :
  (row <- getitem d i;;
   t <- getitem row j;;
   if String.eqb t nan_value then
     brow <- getitem data_bathy i;;
     b <- getitem brow (j + 20);;
     row' <- setitem row j b;;
     setitem d i row'
   else Ok d) =
  cell_step (overlay_cell nan_value data_bathy) i j d.
Proof.
  unfold cell_step, overlay_cell.
  destruct (d !! i) as [row|] eqn:Hrow;
    [rewrite !(getitem_Some _ _ _ Hrow) | by rewrite !(getitem_None _ _ Hrow)].
  simpl.
  destruct (row !! j) as [t|] eqn:Ht;
    [rewrite !(getitem_Some _ _ _ Ht) | by rewrite !(getitem_None _ _ Ht)].
  simpl. destruct (String.eqb t nan_value); simpl.
  - destruct (getitem data_bathy i) as [brow|]; simpl; [|done].
    by destruct (getitem brow (j + 20)).
  - rewrite (setitem_same _ _ _ Ht). simpl. by rewrite (setitem_same _ _ _ Hrow).
Qed.

Lemma overlay_cells_spec nan_value data_bathy data_topo :
  overlay_cells nan_value data_bathy data_topo =
  imapM (fun i row => imapM (overlay_cell nan_value data_bathy i) 0 row)
        0 data_topo.
Proof.
  unfold overlay_cells.
  rewrite (for_each_ext _ _
    (fun i d => row_step (overlay_cell nan_value data_bathy) (i + 0) d)).
  2:{ intros i d. rewrite Nat.add_0_r. unfold row_step.
      destruct (getitem d i) as [row|]; simpl; [|done].
      apply for_each_ext. intros j d'. apply overlay_body_cell_step. }
  rewrite (outer_loop _ 0 data_topo [] 0 eq_refl). simpl.
  by destruct (imapM _ 0 data_topo).
Qed.

Lemma wipeout_body_cell_step float_of_str val i j d :
  (row <- getitem d i;;
   t <- getitem row j;;
   f <- float_of_str t;;
   if float_ge0 f then
     row' <- setitem row j val;;
     setitem d i row'
   else Ok d) =
  cell_step (wipeout_cell float_of_str val) i j d.
Proof.
  unfold cell_step, wipeout_cell.
  destruct (d !! i) as [row|] eqn:Hrow;
    [rewrite !(getitem_Some _ _ _ Hrow) | by rewrite !(getitem_None _ _ Hrow)].
  simpl.
  destruct (row !! j) as [t|] eqn:Ht;
    [rewrite !(getitem_Some _ _ _ Ht) | by rewrite !(getitem_None _ _ Ht)].
  simpl. destruct (float_of_str t) as [f|]; simpl; [|done].
  destruct (float_ge0 f); simpl; [done|].
  rewrite (setitem_same _ _ _ Ht). simpl. by rewrite (setitem_same _ _ _ Hrow).
Qed.

Lemma wipeout_cells_spec float_of_str val data :
  wipeout_cells float_of_str val data =
  (rows <- imapM (fun i row => imapM (wipeout_cell float_of_str val i) 0 row)
                 7 (drop 7 data);;
   Ok (take 7 data ++ rows)%list).
Proof.
  unfold wipeout_cells.
  rewrite (for_each_ext _ _
    (fun i d => row_step (wipeout_cell float_of_str val) (i + 7) d)).
  2:{ intros i d. unfold row_step.
      destruct (getitem d (i + 7)) as [row|]; simpl; [|done].
      apply for_each_ext. intros j d'. apply wipeout_body_cell_step. }
  destruct (decide (7 <= length data)) as [Hlen|Hlen].
  - rewrite <- (take_drop 7 data) at 2.
    apply (outer_loop _ 7 (drop 7 data) (take 7 data) 0).
    rewrite length_take. lia.
  - rewrite drop_ge by lia. rewrite take_ge by lia. simpl.
    by rewrite app_nil_r.
Qed.

(** ** Grids updated cell by cell *)

Section GridUpdate.

Variable g : nat -> nat -> string -> res string.
Variable off : nat.

Lemma update_grid_Ok d d' :
  update_grid g off d = Ok d' ->
  length d' = length d /\
  (forall i, length <$> d' !! i = length <$> d !! i) /\
  forall i j t, cell d i j = Some t ->
    exists t', g (off + i) j t = Ok t' /\ cell d' i j = Some t'.
Proof.
  intros H. apply imapM_Ok_inv in H as [Hlen Hrows].
  split; [done|]. split.
  - intros i. destruct (d !! i) as [row|] eqn:Hrow.
    + destruct (Hrows i row Hrow) as (row' & Hrow' & ->).
      apply imapM_Ok_inv in Hrow' as [Hl _]. simpl. by rewrite Hl.
    + apply lookup_ge_None in Hrow.
      rewrite (proj2 (lookup_ge_None d' i)); [done | lia].
  - intros i j t Hc. unfold cell in *.
    destruct (d !! i) as [row|] eqn:Hrow; simpl in Hc; [|done].
    destruct (Hrows i row Hrow) as (row' & Hrow' & ->). simpl.
    apply imapM_Ok_inv in Hrow' as [_ Hcells].
    destruct (Hcells j t Hc) as (t' & Ht' & ->). by exists t'.
Qed.

Lemma update_grid_all_Ok d :
  (forall i j t, cell d i j = Some t -> exists t', g (off + i) j t = Ok t') ->
  exists d', update_grid g off d = Ok d'.
Proof.
  intros H. apply imapM_all_Ok. intros i row Hrow.
  apply imapM_all_Ok. intros j t Ht. apply (H i j t).
  unfold cell. by rewrite Hrow.
Qed.

Lemma update_grid_Raise d e :
  update_grid g off d = Raise e ->
  exists i j t, cell d i j = Some t /\ g (off + i) j t = Raise e.
Proof.
  intros H. apply imapM_Raise_inv in H as (i & row & Hrow & H).
  apply imapM_Raise_inv in H as (j & t & Ht & H).
  exists i, j, t. split; [|done]. unfold cell. by rewrite Hrow.
Qed.

End GridUpdate.

(** ** overlay *)

Lemma overlay_cell_Ok nan_value data_bathy i j t t' :
  overlay_cell nan_value data_bathy i j t = Ok t' ->
  Some t' = if String.eqb t nan_value then cell data_bathy i (j + 20)
            else Some t.
Proof.
  unfold overlay_cell, cell, getitem.
  destruct (String.eqb t nan_value); [|by intros [= ->]].
  destruct (data_bathy !! i) as [brow|]; simpl; [|done].
  destruct (brow !! (j + 20)); [by intros [= ->] | done].
Qed.

Lemma overlay_cell_Raise nan_value data_bathy i j t e :
  overlay_cell nan_value data_bathy i j t = Raise e ->
  e = IndexError /\ t = nan_value /\ cell data_bathy i (j + 20) = None.
Proof.
  unfold overlay_cell, cell, getitem.
  destruct (String.eqb t nan_value) eqn:Ht; [|done].
  apply String.eqb_eq in Ht.
  destruct (data_bathy !! i) as [brow|]; simpl; [|by intros [= <-]].
  destruct (brow !! (j + 20)); [done | by intros [= <-]].
Qed.

Lemma overlay_cells_only_IndexError nan_value data_bathy data_topo e :
  overlay_cells nan_value data_bathy data_topo = Raise e -> e = IndexError.
Proof.
  rewrite overlay_cells_spec. intros H.
  apply (update_grid_Raise _ 0) in H as (i & j & t & _ & H).
  by apply overlay_cell_Raise in H as [-> _].
Qed.

Lemma overlay_run topo_filename bathy_filename outfile nan_value
    (fs : gmap string file) P S :
  fs !! topo_filename = Some P ->
  fs !! bathy_filename = Some S ->
  overlay topo_filename bathy_filename outfile nan_value fs =
  match overlay_cells nan_value S P with
  | Ok M =>
      match fs !! outfile with
      | Some _ => (Raise FileExistsError, fs)
      | None => (Ok tt, <[outfile := M]> fs)
      end
  | Raise e => (Raise e, fs)
  end.
Proof.
  intros HP HS. unfold overlay, io_bind, open_r, io_lift, open_x.
  rewrite HS, HP. by destruct (overlay_cells nan_value S P).
Qed.

Lemma shape_eq (d d' : file) :
  length d' = length d ->
  (forall i, length <$> d' !! i = length <$> d !! i) ->
  shape d' = shape d.
Proof.
  intros Hlen Hrows. unfold shape. apply list_eq. intros i.
  rewrite !list_lookup_fmap. apply Hrows.
Qed.

(** C1, amended. Where the topography file and the bathymetry file exist
    and the output path is free, and every no-data cell [(i, j)] of the
    topography has a bathymetry cell at [(i, j + 20)], [overlay] writes a
    grid of the topography's shape whose cell [(i, j)] is the bathymetry's
    cell [(i, j + 20)] when the topography's cell is the no-data token, and
    the topography's cell otherwise. *)
Theorem overlay_sentinel_law topo_filename bathy_filename outfile nan_value
    (fs : gmap string file) (P S : file) :
  fs !! topo_filename = Some P ->
  fs !! bathy_filename = Some S ->
  fs !! outfile = None ->
  (forall i j, cell P i j = Some nan_value -> is_Some (cell S i (j + 20))) ->
  exists M,
    overlay topo_filename bathy_filename outfile nan_value fs =
      (Ok tt, <[outfile := M]> fs) /\
    shape M = shape P /\
    forall i j t, cell P i j = Some t ->
      cell M i j = if String.eqb t nan_value then cell S i (j + 20)
                   else Some t.
Proof.
  intros HP HS Hout Hsrc.
  rewrite (overlay_run _ _ _ _ _ _ _ HP HS), Hout, overlay_cells_spec.
  destruct (update_grid_all_Ok (overlay_cell nan_value S) 0 P) as [M HM].
  { intros i j t Hc. simpl.
    destruct (overlay_cell nan_value S i j t) as [t'|e] eqn:Ht; [by eexists|].
    apply overlay_cell_Raise in Ht as (_ & -> & Hnone).
    destruct (Hsrc i j Hc) as [b Hb]. congruence. }
  fold (update_grid (overlay_cell nan_value S) 0 P). rewrite HM.
  exists M. split; [done|].
  apply update_grid_Ok in HM as (Hlen & Hrows & Hcells).
  split; [by apply shape_eq|].
  intros i j t Hc. destruct (Hcells i j t Hc) as (t' & Ht' & ->).
  by apply overlay_cell_Ok in Ht'.
Qed.

Lemma overlay_sentinel_law_witness :
  exists M,
    overlay "topo.tt3" "bathy.tt3" "merged.tt3" overlay_default_nan_value
            fs_overlay = (Ok tt, <["merged.tt3" := M]> fs_overlay) /\
    shape M = shape [topo_row21] /\
    forall i j t, cell [topo_row21] i j = Some t ->
      cell M i j = if String.eqb t overlay_default_nan_value
                   then cell [bathy_row21] i (j + 20) else Some t.
Proof.
  apply (overlay_sentinel_law "topo.tt3" "bathy.tt3" "merged.tt3"
           overlay_default_nan_value fs_overlay [topo_row21] [bathy_row21]);
    [reflexivity | reflexivity | reflexivity |].
  intros [|i] j H; [|discriminate H].
  destruct j as [|j]; [by eexists|].
  do 20 (destruct j as [|j]; [discriminate H|]). discriminate H.
Defined.

(** C1 as stated fails: with two grids of one row and 21 columns, the
    no-data cell [(0, 0)] of the topography receives the bathymetry's
    cell [(0, 20)], not its cell [(0, 0)]. *)
Lemma overlay_sentinel_law_counterexample :
  ~ (forall nan_value (P S M : file),
       shape P = shape S ->
       overlay_cells nan_value S P = Ok M ->
       forall i j t, cell P i j = Some t ->
         cell M i j = if String.eqb t nan_value then cell S i j else Some t).
Proof.
  intros H.
  specialize (H overlay_default_nan_value [topo_row21] [bathy_row21]
                [("120" :: map pretty (seq 1 20))] eq_refl eq_refl
                0 0 overlay_default_nan_value eq_refl).
  vm_compute in H. discriminate H.
Qed.

(** C8, amended. [overlay] compares no shapes. Where the two input files
    exist and the output path is free, it raises [IndexError], writing
    nothing, when some no-data cell [(i, j)] of the topography has no
    bathymetry cell at [(i, j + 20)]; otherwise it succeeds, whatever the
    shapes of the two grids. *)
Theorem overlay_failure topo_filename bathy_filename outfile nan_value
    (fs : gmap string file) (P S : file) :
  fs !! topo_filename = Some P ->
  fs !! bathy_filename = Some S ->
  fs !! outfile = None ->
  ((exists i j, cell P i j = Some nan_value /\ cell S i (j + 20) = None) ->
   overlay topo_filename bathy_filename outfile nan_value fs =
     (Raise IndexError, fs)) /\
  ((forall i j, cell P i j = Some nan_value -> is_Some (cell S i (j + 20))) ->
   exists M, overlay topo_filename bathy_filename outfile nan_value fs =
     (Ok tt, <[outfile := M]> fs)).
Proof.
  intros HP HS Hout.
  rewrite (overlay_run _ _ _ _ _ _ _ HP HS), Hout. split.
  - intros (i & j & Hc & Hnone).
    destruct (overlay_cells nan_value S P) as [M|e] eqn:HM.
    + rewrite overlay_cells_spec in HM.
      apply (update_grid_Ok _ 0) in HM as (_ & _ & Hcells).
      destruct (Hcells i j _ Hc) as (t' & Ht' & _).
      apply overlay_cell_Ok in Ht'. simpl in Ht'.
      rewrite String.eqb_refl in Ht'. congruence.
    + by rewrite (overlay_cells_only_IndexError _ _ _ _ HM).
  - intros Hsrc. rewrite overlay_cells_spec.
    destruct (update_grid_all_Ok (overlay_cell nan_value S) 0 P) as [M HM].
    { intros i j t Hc. simpl.
      destruct (overlay_cell nan_value S i j t) as [t'|e] eqn:Ht;
        [by eexists|].
      apply overlay_cell_Raise in Ht as (_ & -> & Hnone).
      destruct (Hsrc i j Hc) as [b Hb]. congruence. }
    fold (update_grid (overlay_cell nan_value S) 0 P). rewrite HM.
    by exists M.
Qed.

Lemma overlay_failure_witness :
  overlay "topo.tt3" "bathy.tt3" "merged.tt3" "-9999" fs_2x2 =
    (Raise IndexError, fs_2x2).
Proof.
  apply (overlay_failure "topo.tt3" "bathy.tt3" "merged.tt3" "-9999" fs_2x2
           topo_2x2 bathy_2x2); [reflexivity | reflexivity | reflexivity |].
  exists 0, 1. split; reflexivity.
Defined.

(** C8 as stated fails in both directions: two grids of different shapes
    are merged without an error when the topography has no no-data cell,
    and the two grids of the specification's scenario, of the same shape,
    make [overlay] raise [IndexError]. *)
Lemma overlay_failure_counterexample :
  ~ (forall nan_value (P S : file),
       shape P <> shape S ->
       is_ok (overlay_cells nan_value S P) = false) /\
  ~ (forall nan_value (P S : file),
       shape P = shape S ->
       is_ok (overlay_cells nan_value S P) = true).
Proof.
  split; intros H.
  - specialize (H "-9999" [["1"; "4"]] [] ltac:(discriminate)).
    vm_compute in H. discriminate H.
  - specialize (H "-9999" topo_2x2 bathy_2x2 eq_refl).
    vm_compute in H. discriminate H.
Qed.

(** ** wipeout_topo *)

Lemma wipeout_run float_of_str filename outfile val (fs : gmap string file)
    data :
  fs !! filename = Some data ->
  wipeout_topo float_of_str filename outfile val fs =
  match wipeout_cells float_of_str val data with
  | Ok out =>
      match fs !! outfile with
      | Some _ => (Raise FileExistsError, fs)
      | None => (Ok tt, <[outfile := out]> fs)
      end
  | Raise e => (Raise e, fs)
  end.
Proof.
  intros Hd. unfold wipeout_topo, io_bind, open_r, io_lift, open_x.
  rewrite Hd. by destruct (wipeout_cells float_of_str val data).
Qed.

Lemma cell_drop (d : file) n i j : cell (drop n d) i j = cell d (n + i) j.
Proof. unfold cell. by rewrite lookup_drop. Qed.

Lemma wipeout_cell_Ok float_of_str val i j t t' :
  wipeout_cell float_of_str val i j t = Ok t' ->
  exists f, float_of_str t = Ok f /\ t' = if float_ge0 f then val else t.
Proof.
  unfold wipeout_cell. destruct (float_of_str t) as [f|]; simpl; [|done].
  intros [= <-]. by exists f.
Qed.

(** X22. Where the input file exists, the output path is free and
    every token of the lines from the eighth on is a float literal,
    [wipeout_topo] writes a file of the same shape in which, on every line
    from the eighth on (index 7 and more), each token whose value is
    greater than or equal to 0 is replaced by [val] and each other token is
    kept, and in which the six header lines are those of the input. *)
Theorem wipeout_topo_rows_from_7 float_of_str filename outfile val
    (fs : gmap string file) (data : file) :
  fs !! filename = Some data ->
  fs !! outfile = None ->
  (forall i j t, 7 <= i -> cell data i j = Some t ->
     is_ok (float_of_str t) = true) ->
  exists out,
    wipeout_topo float_of_str filename outfile val fs =
      (Ok tt, <[outfile := out]> fs) /\
    shape out = shape data /\
    (forall i j t, 7 <= i -> cell data i j = Some t ->
       exists f, float_of_str t = Ok f /\
                 cell out i j = Some (if float_ge0 f then val else t)) /\
    (forall i, i < 6 -> out !! i = data !! i).
Proof.
  intros Hd Hout Hfloat.
  rewrite (wipeout_run _ _ _ _ _ _ Hd), Hout, wipeout_cells_spec.
  destruct (update_grid_all_Ok (wipeout_cell float_of_str val) 7
              (drop 7 data)) as [rows Hrows].
  { intros i j t Hc. rewrite cell_drop in Hc.
    specialize (Hfloat (7 + i) j t ltac:(lia) Hc).
    unfold wipeout_cell. destruct (float_of_str t); [by eexists | done]. }
  fold (update_grid (wipeout_cell float_of_str val) 7 (drop 7 data)).
  rewrite Hrows. simpl. eexists. split; [done|].
  apply update_grid_Ok in Hrows as (Hlen & Hshape & Hcells).
  split; [|split].
  - unfold shape. rewrite map_app.
    rewrite <- (take_drop 7 data) at 2. rewrite map_app. f_equal.
    by apply shape_eq.
  - intros i j t Hi Hc.
    replace i with (7 + (i - 7)) in Hc by lia. rewrite <- cell_drop in Hc.
    destruct (Hcells _ _ _ Hc) as (t' & Ht' & Hout').
    apply wipeout_cell_Ok in Ht' as (f & Hf & ->). exists f. split; [done|].
    rewrite <- Hout'. unfold cell.
    assert (length data >= 7) as Hge.
    { unfold cell in Hc. destruct (drop 7 data !! (i - 7)) eqn:E; [|done].
      apply lookup_lt_Some in E. rewrite length_drop in E. lia. }
    rewrite lookup_app_r; rewrite length_take; [|lia].
    by replace (i - 7 `min` length data) with (i - 7) by lia.
  - intros i Hi. destruct (decide (i < length data)) as [Hlt|Hge].
    + rewrite lookup_app_l; [|rewrite length_take; lia].
      by rewrite lookup_take_lt by lia.
    + rewrite (proj2 (lookup_ge_None data i)) by lia.
      apply lookup_ge_None. rewrite length_app, length_take, Hlen, length_drop.
      lia.
Qed.

Lemma wipeout_topo_rows_from_7_witness :
  exists out,
    wipeout_topo float_of_literal "interpolated.tt3" "wiped.tt3" "-2" fs_wipe =
      (Ok tt, <["wiped.tt3" := out]> fs_wipe) /\
    shape out = shape raster_wipe /\
    (forall i j t, 7 <= i -> cell raster_wipe i j = Some t ->
       exists f, float_of_literal t = Ok f /\
                 cell out i j = Some (if float_ge0 f then "-2" else t)) /\
    (forall i, i < 6 -> out !! i = raster_wipe !! i).
Proof.
  apply (wipeout_topo_rows_from_7 float_of_literal "interpolated.tt3"
           "wiped.tt3" "-2" fs_wipe raster_wipe);
    [reflexivity | reflexivity |].
  intros i j t Hi Hc.
  do 7 (destruct i as [|i]; [lia|]).
  destruct i as [|i]; [|by destruct i].
  destruct j as [|[|j]]; [| |by destruct j];
    injection Hc as <-; reflexivity.
Defined.

(** C2, what the code does. On a raster of six header lines and two grid
    lines, [wipeout_topo] masks the ["7"] of the second grid line and
    leaves the ["5"] of the first grid line, the seventh line of the file,
    although its value is greater than or equal to 0: the loop starts at
    the eighth line. *)
Theorem wipeout_topo_skips_first_grid_row :
  wipeout_topo float_of_literal "interpolated.tt3" "wiped.tt3" "-2"
    fs_two_rows =
    (Ok tt,
     <["wiped.tt3" := (header_2x2 ++ [["5"; "-3"]; ["-2"; "-1"]])%list]>
       fs_two_rows) /\
  cell raster_two_rows 6 0 = Some "5" /\
  float_of_literal "5" = Ok (Ffin (5 # 1)) /\
  float_ge0 (Ffin (5 # 1)) = true.
Proof. repeat split. Qed.

(** ** interpolate *)

Lemma mapM_Ok_inv {A B : Type} (f : A -> res B) l l' :
  mapM f l = Ok l' ->
  length l' = length l /\
  forall n x, l !! n = Some x -> exists y, f x = Ok y /\ l' !! n = Some y.
Proof. rewrite (mapM_imapM f 0). apply imapM_Ok_inv. Qed.

Lemma mapM_Raise_inv {A B : Type} (f : A -> res B) l e :
  mapM f l = Raise e -> exists x, x ∈ l /\ f x = Raise e.
Proof.
  rewrite (mapM_imapM f 0). intros H.
  apply imapM_Raise_inv in H as (n & x & Hn & Hx).
  exists x. split; [|done]. apply list_elem_of_lookup. by exists n.
Qed.

Lemma mapM_Forall2 {A B : Type} (f : A -> res B) (R : A -> B -> Prop) l l' :
  Forall2 (fun x y => f x = Ok y /\ R x y) l l' -> mapM f l = Ok l'.
Proof.
  induction 1 as [|x y l l' [Hf _] _ IH]; simpl; [done|].
  by rewrite Hf, IH.
Qed.


Lemma length_mgrid_axis stop num : length (mgrid_axis stop num) = num.
Proof. unfold mgrid_axis. by rewrite length_map, length_seq. Qed.

Lemma mgrid_rows x y nx ny : length (mgrid x y nx ny) = nx.
Proof. unfold mgrid. by rewrite length_map, length_mgrid_axis. Qed.

Lemma mgrid_cols x y nx ny :
  Forall (fun row => length row = ny) (mgrid x y nx ny).
Proof.
  unfold mgrid. apply Forall_forall. intros row Hrow.
  apply list_elem_of_fmap in Hrow as (u & -> & _).
  by rewrite length_map, length_mgrid_axis.
Qed.

Section Interpolate.

Variable float_of_str : string -> res pyfloat.
Variable V : Type.
Variable fmt : V -> string.
Variable griddata_linear : list (float * float) -> list Z -> res (float * float -> V).

Local Abbreviation resample_ := (resample V griddata_linear).
Local Abbreviation parse_data_ := (parse_data float_of_str).

Lemma interpolate_check_fails in_filename res_in out_filename res_out fs e :
  check_resolutions res_in res_out = Raise e ->
  interpolate float_of_str V fmt griddata_linear
      in_filename res_in out_filename res_out fs = (Raise e, fs).
Proof.
  intros H. unfold interpolate, io_bind, io_lift. by rewrite H.
Qed.

Lemma interpolate_run in_filename a out_filename b
    (fs : gmap string file) :
  (1 <= b <= a)%Z ->
  interpolate float_of_str V fmt griddata_linear
      in_filename (PyInt a) out_filename (PyInt b) fs =
  match fs !! in_filename with
  | None => (Raise FileNotFoundError, fs)
  | Some lines =>
      match parse_data_ (drop 6 lines) with
      | Raise e => (Raise e, fs)
      | Ok data =>
          match resample_ (a / b) data with
          | Raise e => (Raise e, fs)
          | Ok grid =>
              (Ok tt,
               <[out_filename := (take 6 lines ++ map (map fmt) grid)%list]> fs)
          end
      end
  end.
Proof.
  intros Hab.
  unfold interpolate, io_bind, io_lift, open_r, open_w,
    check_resolutions.
  replace ((a <? 1)%Z || (b <? 1)%Z) with false
    by (symmetry; apply orb_false_iff; split; apply Z.ltb_ge; lia).
  replace (a <? b)%Z with false by (symmetry; apply Z.ltb_ge; lia).
  simpl. destruct (fs !! in_filename) as [lines|]; [|done].
  destruct (parse_data_ (drop 6 lines)) as [data|]; [|done].
  by destruct (resample_ (a / b) data).
Qed.

Lemma resample_run scale (row0 : list Z) (rest : list (list Z)) :
  resample_ scale (row0 :: rest) =
  match griddata_linear
          (sample_points (S (length rest)) (length row0))
          (concat (row0 :: rest)) with
  | Ok ip =>
      Ok (map (map ip)
            (mgrid (S (length rest)) (length row0)
                   (S (length rest) * Z.to_nat scale)
                   (length row0 * Z.to_nat scale)))
  | Raise e => Raise e
  end.
Proof. unfold resample. simpl. by destruct (griddata_linear _ _). Qed.

Lemma parse_data_shape rows data :
  parse_data_ rows = Ok data ->
  length data = length rows /\
  forall i, length <$> data !! i = length <$> rows !! i.
Proof.
  intros H. apply mapM_Ok_inv in H as [Hlen Hrows]. split; [done|].
  intros i. destruct (rows !! i) as [row|] eqn:Hrow.
  - destruct (Hrows i row Hrow) as (zs & Hzs & ->).
    apply mapM_Ok_inv in Hzs as [Hl _]. simpl. by rewrite Hl.
  - apply lookup_ge_None in Hrow.
    rewrite (proj2 (lookup_ge_None data i)); [done | lia].
Qed.

End Interpolate.

(** ** The resolution checks *)

Lemma check_resolutions_Ok res_in res_out a b :
  check_resolutions res_in res_out = Ok (a, b) ->
  res_in = PyInt a /\ res_out = PyInt b /\ (1 <= b <= a)%Z.
Proof.
  destruct res_in as [a'|f1|b1|s1|], res_out as [b'|f2|b2|s2|]; try done.
  unfold check_resolutions.
  destruct (a' <? 1)%Z eqn:Ha; [done|].
  destruct (b' <? 1)%Z eqn:Hb; [done|].
  destruct (a' <? b')%Z eqn:Hab; [done|]. simpl. intros [= <- <-].
  apply Z.ltb_ge in Ha, Hb, Hab. repeat split; lia.
Qed.

Lemma check_resolutions_Raise res_in res_out e :
  check_resolutions res_in res_out = Raise e ->
  invalid_resolution e /\
  (downsampling res_in res_out \/ ~ positive_whole res_in \/
   ~ positive_whole res_out).
Proof.
  unfold invalid_resolution, positive_whole.
  destruct res_in as [a|f1|b1|s1|], res_out as [b|f2|b2|s2|]; simpl;
    try (intros [= <-]; split; [by left|]; right;
         first [by left; intros (z & [=] & _)
               | by right; intros (z & [=] & _)]).
  destruct (a <? 1)%Z eqn:Ha; simpl.
  { intros [= <-]. apply Z.ltb_lt in Ha. split; [by right; left|].
    right; left. intros (z & [= <-] & Hz). lia. }
  destruct (b <? 1)%Z eqn:Hb; simpl.
  { intros [= <-]. apply Z.ltb_lt in Hb. split; [by right; left|].
    right; right. intros (z & [= <-] & Hz). lia. }
  destruct (a <? b)%Z eqn:Hab; [|done].
  intros [= <-]. apply Z.ltb_lt in Hab. split; [by right; right|].
  left. by exists a, b.
Qed.

Lemma later_errors_valid e :
  e = FileNotFoundError \/ e = IndexError \/ e = OverflowError \/
  e = ValueError "cannot convert float NaN to integer" \/
  e = ValueError "need at least one array to concatenate" ->
  ~ invalid_resolution e.
Proof.
  intros [-> | [-> | [-> | [-> | ->]]]] [H|[H|H]]; discriminate H.
Qed.

Section ResolutionErrors.

Variable float_of_str : string -> res pyfloat.
Variable V : Type.
Variable fmt : V -> string.
Variable griddata_linear : list (float * float) -> list Z -> res (float * float -> V).

(** The library functions have errors of their own, none of them with
    one of the three messages of the resolution checks. *)
Hypothesis float_errors :
  forall t e, float_of_str t = Raise e -> ~ invalid_resolution e.
Hypothesis griddata_errors :
  forall p v e, griddata_linear p v = Raise e -> ~ invalid_resolution e.

Lemma parse_data_errors rows e :
  parse_data float_of_str rows = Raise e -> ~ invalid_resolution e.
Proof.
  intros H. apply mapM_Raise_inv in H as (row & _ & H).
  apply mapM_Raise_inv in H as (t & _ & H). unfold int_float in H.
  destruct (float_of_str t) as [f|e'] eqn:Hf; simpl in H.
  - apply later_errors_valid.
    destruct f; simpl in H; [| |done]; injection H as <-; auto 6.
  - injection H as <-. by eapply float_errors.
Qed.

Lemma resample_errors scale data e :
  resample V griddata_linear scale data = Raise e -> ~ invalid_resolution e.
Proof.
  destruct data as [|row0 rest].
  - intros [= <-]. apply later_errors_valid. auto 6.
  - rewrite resample_run.
    destruct (griddata_linear _ _) as [ip|e'] eqn:Hg; [done|].
    intros [= <-]. by eapply griddata_errors.
Qed.

(** C4. [interpolate] raises one of the errors of its resolution checks,
    leaving the file system as it was, if and only if [res_in < res_out]
    or one of the two resolutions is not a positive whole number (an
    [int] that is at least 1); with [res_in = 3] and [res_out = 60] it
    raises. *)
Theorem interpolate_invalid_resolution in_filename res_in out_filename
    res_out (fs : gmap string file) :
  ((exists e, invalid_resolution e /\
      interpolate float_of_str V fmt griddata_linear
        in_filename res_in out_filename res_out fs = (Raise e, fs)) <->
   (downsampling res_in res_out \/ ~ positive_whole res_in \/
    ~ positive_whole res_out)) /\
  (exists e, invalid_resolution e /\
     interpolate float_of_str V fmt griddata_linear
       in_filename (PyInt 3) out_filename (PyInt 60) fs = (Raise e, fs)).
Proof.
  split.
  - destruct (check_resolutions res_in res_out) as [[a b]|e] eqn:Hc.
    + apply check_resolutions_Ok in Hc as (-> & -> & Hab). split.
      * intros (e & He & Hrun). exfalso.
        rewrite interpolate_run in Hrun by done.
        destruct (fs !! in_filename) as [lines|].
        2:{ injection Hrun as <-. revert He. apply later_errors_valid. auto. }
        destruct (parse_data float_of_str (drop 6 lines)) as [data|e'] eqn:Hp.
        2:{ injection Hrun as <-. revert He. by eapply parse_data_errors. }
        destruct (resample V griddata_linear (a / b) data)
          as [grid|e'] eqn:Hr; [done|].
        injection Hrun as <-. revert He. by eapply resample_errors.
      * intros [(a' & b' & [= <-] & [= <-] & Hlt)|[H|H]].
        -- lia.
        -- destruct H. exists a. split; [done | lia].
        -- destruct H. exists b. split; [done | lia].
    + pose proof (check_resolutions_Raise _ _ _ Hc) as [He Hcond].
      split; [done|]. intros _. exists e. split; [done|].
      by apply interpolate_check_fails.
  - exists (ValueError msg_order). split; [by right; right|].
    by apply interpolate_check_fails.
Qed.

End ResolutionErrors.

Lemma float_of_literal_errors t e :
  float_of_literal t = Raise e -> ~ invalid_resolution e.
Proof.
  unfold float_of_literal. repeat case_match; try done.
  all: intros [= <-] [He|[He|He]]; discriminate He.
Qed.

Lemma griddata_first_errors p v e :
  griddata_first p v = Raise e -> ~ invalid_resolution e.
Proof.
  destruct v; simpl; [|done]. intros [= <-] [H|[H|H]]; discriminate H.
Qed.

Lemma interpolate_invalid_resolution_witness :
  ((exists e, invalid_resolution e /\
      interpolate float_of_literal Z fmt_Z griddata_first
        "bathy.tt3" (PyInt 3) "fine.tt3" (PyInt 60) fs_interp =
        (Raise e, fs_interp)) <->
   (downsampling (PyInt 3) (PyInt 60) \/ ~ positive_whole (PyInt 3) \/
    ~ positive_whole (PyInt 60))) /\
  (exists e, invalid_resolution e /\
     interpolate float_of_literal Z fmt_Z griddata_first
       "bathy.tt3" (PyInt 3) "fine.tt3" (PyInt 60) fs_interp =
       (Raise e, fs_interp)).
Proof.
  exact (interpolate_invalid_resolution float_of_literal Z fmt_Z
           griddata_first float_of_literal_errors griddata_first_errors
           "bathy.tt3" (PyInt 3) "fine.tt3" (PyInt 60) fs_interp).
Defined.

(** ** The values and the shape of the interpolated grid *)

Lemma truncation_quot q : truncation q (Z.quot (Qnum q) (Z.pos (Qden q))).
Proof.
  destruct q as [n d]. unfold truncation, Qle, Qlt. simpl.
  pose proof (Z.quot_rem' n (Z.pos d)) as Hqr.
  split; intros Hn; rewrite Z.mul_1_r in *.
  - pose proof (Z.rem_bound_pos n (Z.pos d) Hn ltac:(lia)). nia.
  - pose proof (Z.rem_bound_pos_neg n (Z.pos d) ltac:(lia) ltac:(lia)).
    change (Z.pos (1 * 1)) with 1%Z. nia.
Qed.

Lemma truncation_unique q z z' : truncation q z -> truncation q z' -> z = z'.
Proof.
  destruct q as [n d]. unfold truncation, Qle, Qlt. simpl.
  rewrite !Z.mul_1_r. intros [H1 H2] [H1' H2'].
  destruct (Z.le_ge_cases 0 n) as [Hn|Hn].
  - specialize (H1 Hn). specialize (H1' Hn). nia.
  - specialize (H2 Hn). specialize (H2' Hn). nia.
Qed.

Lemma int_float_truncation float_of_str t q z :
  float_of_str t = Ok (Ffin q) -> truncation q z ->
  int_float float_of_str t = Ok z.
Proof.
  intros Hf Hz. unfold int_float. rewrite Hf. simpl. f_equal.
  eapply truncation_unique; [apply truncation_quot | done].
Qed.

Lemma length_concat_rows {A : Type} (data : list (list A)) c :
  Forall (fun row => length row = c) data ->
  length (concat data) = length data * c.
Proof.
  induction 1 as [|row data Hrow _ IH]; simpl; [done|].
  rewrite length_app. lia.
Qed.

Lemma parse_data_truncated float_of_str (rows : file) (qs : list (list Q))
    (zs : list (list Z)) :
  Forall2 (Forall2 (fun t q => float_of_str t = Ok (Ffin q))) rows qs ->
  Forall2 (Forall2 truncation) qs zs ->
  parse_data float_of_str rows = Ok zs.
Proof.
  intros Hqs Hzs. unfold parse_data.
  apply (mapM_Forall2 _ (fun _ _ => True)).
  revert zs Hzs.
  induction Hqs as [|row qrow rows qs Hrow _ IH]; intros zs Hzs;
    inversion Hzs as [|? zrow ? zs' Hzrow Hzs']; subst; constructor.
  - split; [|done]. apply (mapM_Forall2 _ (fun _ _ => True)).
    clear -Hrow Hzrow. revert zrow Hzrow.
    induction Hrow as [|t q row qrow Ht _ IH]; intros zrow Hzrow;
      inversion Hzrow; subst; constructor; [|by apply IH].
    split; [|done]. by eapply int_float_truncation.
  - by apply IH.
Qed.



Section InterpolateOutput.

Variable float_of_str : string -> res pyfloat.
Variable V : Type.
Variable fmt : V -> string.
Variable griddata_linear : list (float * float) -> list Z -> res (float * float -> V).


Lemma parse_data_finite (rows : file) :
  (forall row t, row ∈ rows -> t ∈ row ->
     exists q, float_of_str t = Ok (Ffin q)) ->
  exists data, parse_data float_of_str rows = Ok data.
Proof.
  intros H. unfold parse_data. rewrite (mapM_imapM _ 0).
  apply imapM_all_Ok. intros i row Hrow.
  rewrite (mapM_imapM _ 0). apply imapM_all_Ok. intros j t Ht.
  destruct (H row t) as [q Hq].
  { apply list_elem_of_lookup. by exists i. }
  { apply list_elem_of_lookup. by exists j. }
  unfold int_float. rewrite Hq. simpl. by eexists.
Qed.

(** The run of [interpolate] on a grid of [r] rows and [c] columns of
    finite values, when [griddata] accepts the samples. *)
Lemma interpolate_success in_filename a out_filename b
    (fs : gmap string file) (header rows : file) r c :
  (1 <= b <= a)%Z ->
  fs !! in_filename = Some (header ++ rows)%list ->
  length header = 6 ->
  length rows = r -> 1 <= r ->
  Forall (fun row => length row = c) rows ->
  (forall row t, row ∈ rows -> t ∈ row ->
     exists q, float_of_str t = Ok (Ffin q)) ->
  (forall values, length values = r * c ->
     is_ok (griddata_linear (sample_points r c) values) = true) ->
  exists grid : list (list V),
    interpolate float_of_str V fmt griddata_linear
      in_filename (PyInt a) out_filename (PyInt b) fs =
      (Ok tt, <[out_filename := (header ++ map (map fmt) grid)%list]> fs) /\
    length grid = r * Z.to_nat (a / b) /\
    Forall (fun row => length row = c * Z.to_nat (a / b)) grid.
Proof.
  intros Hab Hin Hh Hr Hr1 Hc Hfin Hgrid.
  rewrite interpolate_run, Hin by done.
  rewrite drop_app_length' by done. rewrite take_app_length' by done.
  destruct (parse_data_finite rows Hfin) as [data Hdata]. rewrite Hdata.
  apply parse_data_shape in Hdata as [Hlen Hrows].
  assert (Forall (fun row => length row = c) data) as Hcd.
  { apply Forall_lookup. intros i row Hi.
    specialize (Hrows i). rewrite Hi in Hrows. simpl in Hrows.
    destruct (rows !! i) as [row'|] eqn:Hi'; [|done].
    injection Hrows as ->. exact (Forall_lookup_1 _ _ _ _ Hc Hi'). }
  destruct data as [|row0 rest]; [simpl in Hlen; lia|].
  assert (length row0 = c) as Hc0 by (by inversion Hcd).
  assert (S (length rest) = r) as Hr' by (simpl in Hlen; lia).
  rewrite resample_run, Hc0, Hr'.
  specialize (Hgrid (concat (row0 :: rest))).
  rewrite (length_concat_rows _ c Hcd) in Hgrid. simpl in Hgrid.
  specialize (Hgrid ltac:(lia)). simpl.
  destruct (griddata_linear _ _) as [ip|]; [|done].
  eexists. split; [done|]. split.
  - by rewrite length_map, mgrid_rows.
  - apply Forall_fmap. eapply Forall_impl; [apply mgrid_cols|].
    intros row Hrow. simpl. by rewrite length_map.
Qed.

(** C6. For an input grid of [r] rows and [c] columns of finite values
    below the six header lines and a valid pair of resolutions, where
    [griddata] accepts the samples, [interpolate] writes a grid of
    [r * (res_in // res_out)] rows and [c * (res_in // res_out)]
    columns. *)
Theorem interpolate_shape in_filename a out_filename b
    (fs : gmap string file) (header rows : file) r c :
  (1 <= b <= a)%Z ->
  fs !! in_filename = Some (header ++ rows)%list ->
  length header = 6 ->
  length rows = r -> 1 <= r ->
  Forall (fun row => length row = c) rows ->
  (forall row t, row ∈ rows -> t ∈ row ->
     exists q, float_of_str t = Ok (Ffin q)) ->
  (forall values, length values = r * c ->
     is_ok (griddata_linear (sample_points r c) values) = true) ->
  exists grid : file,
    interpolate float_of_str V fmt griddata_linear
      in_filename (PyInt a) out_filename (PyInt b) fs =
      (Ok tt, <[out_filename := (header ++ grid)%list]> fs) /\
    Z.of_nat (length grid) = (Z.of_nat r * (a / b))%Z /\
    Forall (fun row => Z.of_nat (length row) = (Z.of_nat c * (a / b))%Z) grid.
Proof.
  intros Hab Hin Hh Hr Hr1 Hc Hfin Hgrid.
  destruct (interpolate_success in_filename a out_filename b fs header rows
              r c) as (grid & Hrun & Hrows & Hcols); try done.
  assert (0 <= a / b)%Z as Hs by (apply Z.div_pos; lia).
  exists (map (map fmt) grid). split; [done|]. split.
  - rewrite length_map, Hrows. lia.
  - apply Forall_fmap. eapply Forall_impl; [exact Hcols|].
    intros row Hrow. simpl. rewrite length_map, Hrow. lia.
Qed.

(** C3, amended. [interpolate] writes the six header lines of its input
    unchanged above a grid that is [res_in // res_out] times larger in
    each dimension: for an input whose header declares the dimensions of
    its grid, the header and the grid of the output agree exactly when
    [res_in // res_out] is 1. *)
Theorem interpolate_header_consistency in_filename a out_filename b
    (fs : gmap string file) (header rows : file) r c :
  (1 <= b <= a)%Z ->
  fs !! in_filename = Some (header ++ rows)%list ->
  length header = 6 ->
  length rows = r -> 1 <= r ->
  Forall (fun row => length row = c) rows ->
  (forall row t, row ∈ rows -> t ∈ row ->
     exists q, float_of_str t = Ok (Ffin q)) ->
  (forall values, length values = r * c ->
     is_ok (griddata_linear (sample_points r c) values) = true) ->
  consistent header rows ->
  exists grid : file,
    interpolate float_of_str V fmt griddata_linear
      in_filename (PyInt a) out_filename (PyInt b) fs =
      (Ok tt, <[out_filename := (header ++ grid)%list]> fs) /\
    (consistent header grid <-> (a / b = 1)%Z).
Proof.
  intros Hab Hin Hh Hr Hr1 Hc Hfin Hgrid [Hnr (c' & Hnc & Hc')].
  destruct (interpolate_success in_filename a out_filename b fs header rows
              r c) as (grid & Hrun & Hrows & Hcols); try done.
  assert (0 <= a / b)%Z as Hs by (apply Z.div_pos; lia).
  exists (map (map fmt) grid). split; [done|].
  unfold consistent. rewrite Hnr, Hnc, length_map, Hrows, Hr. split.
  - intros [[= Hrs] _]. nia.
  - intros Hone. rewrite Hone. change (Z.to_nat 1) with 1.
    split; [by rewrite Nat.mul_1_r|]. exists c'. split; [done|].
    assert (c' = c) as ->.
    { destruct rows as [|row0 rows']; [simpl in Hr; lia|].
      inversion Hc; inversion Hc'; congruence. }
    apply Forall_fmap. eapply Forall_impl; [exact Hcols|].
    intros row Hrow. simpl. rewrite length_map, Hrow, Hone. simpl. lia.
Qed.

(** C7, what the code does. Where a file exists at the output path, a run
    of [interpolate] on a grid of [r] rows and [c] columns of finite
    values that [griddata] accepts does not fail: it succeeds and the file
    at the output path is now the header above the interpolated grid,
    [np.savetxt] having opened the path for writing. *)
Theorem interpolate_overwrites in_filename a out_filename b
    (fs : gmap string file) (header rows old : file) r c :
  (1 <= b <= a)%Z ->
  fs !! in_filename = Some (header ++ rows)%list ->
  length header = 6 ->
  length rows = r -> 1 <= r ->
  Forall (fun row => length row = c) rows ->
  (forall row t, row ∈ rows -> t ∈ row ->
     exists q, float_of_str t = Ok (Ffin q)) ->
  (forall values, length values = r * c ->
     is_ok (griddata_linear (sample_points r c) values) = true) ->
  fs !! out_filename = Some old ->
  exists grid : file,
    interpolate float_of_str V fmt griddata_linear
      in_filename (PyInt a) out_filename (PyInt b) fs =
      (Ok tt, <[out_filename := (header ++ grid)%list]> fs) /\
    length grid = r * Z.to_nat (a / b) /\
    snd (interpolate float_of_str V fmt griddata_linear
           in_filename (PyInt a) out_filename (PyInt b) fs) !! out_filename =
      Some (header ++ grid)%list.
Proof.
  intros Hab Hin Hh Hr Hr1 Hc Hfin Hgrid _.
  destruct (interpolate_success in_filename a out_filename b fs header rows
              r c) as (grid & Hrun & Hrows & _); try done.
  exists (map (map fmt) grid). rewrite Hrun. split; [done|]. split.
  - by rewrite length_map.
  - simpl. apply lookup_insert_eq.
Qed.

(** C10. Where the tokens of the grid, of rows of one length, denote the
    finite values [qs] and [zs] are these values truncated toward zero,
    every token is converted to its entry of [zs] and [interpolate] hands
    [griddata] the samples [zs] and nothing else of the tokens: its
    outcome is that of [griddata] on [zs], and the file it writes is the
    header above the interpolant of [zs] at the query positions. *)
Theorem interpolate_truncates in_filename a out_filename b
    (fs : gmap string file) (header rows : file) (qs : list (list Q))
    (zs : list (list Z)) c :
  (1 <= b <= a)%Z ->
  fs !! in_filename = Some (header ++ rows)%list ->
  length header = 6 ->
  rows <> [] ->
  Forall (fun row => length row = c) rows ->
  Forall2 (Forall2 (fun t q => float_of_str t = Ok (Ffin q))) rows qs ->
  Forall2 (Forall2 truncation) qs zs ->
  parse_data float_of_str rows = Ok zs /\
  interpolate float_of_str V fmt griddata_linear
      in_filename (PyInt a) out_filename (PyInt b) fs =
  let x := length zs in
  let y := length (hd [] zs) in
  match griddata_linear (sample_points x y) (concat zs) with
  | Ok ip =>
      (Ok tt,
       <[out_filename :=
           (header ++
            map (map (fun p => fmt (ip p)))
                (mgrid x y (x * Z.to_nat (a / b)) (y * Z.to_nat (a / b))))%list]>
         fs)
  | Raise e => (Raise e, fs)
  end.
Proof.
  intros Hab Hin Hh Hne _ Hqs Hzs.
  assert (parse_data float_of_str rows = Ok zs) as Hparse
    by (by eapply parse_data_truncated).
  split; [done|].
  rewrite interpolate_run, Hin by done.
  rewrite drop_app_length' by done. rewrite take_app_length' by done.
  rewrite Hparse.
  destruct zs as [|row0 rest].
  { destruct rows; [done | by inversion Hqs; subst; inversion Hzs]. }
  rewrite resample_run. simpl.
  destruct (griddata_linear _ _) as [ip|]; [|done].
  do 2 f_equal. f_equal. rewrite <- list_fmap_compose.
  apply list_fmap_ext. intros _ row _. simpl.
  by rewrite <- list_fmap_compose.
Qed.

End InterpolateOutput.

(** ** Exactness at the sample positions *)

Section Exactness.

Variable float_of_str : string -> res pyfloat.
Variable fmt : pyfloat -> string.
Variable griddata_linear : list (float * float) -> list Z -> res (float * float -> pyfloat).


End Exactness.

(** ** The stages on the example inputs *)

Lemma rows_2x2_finite row t :
  row ∈ rows_2x2 -> t ∈ row -> exists q, float_of_literal t = Ok (Ffin q).
Proof.
  intros Hrow Ht.
  assert (Forall (Forall (fun t => exists q, float_of_literal t = Ok (Ffin q)))
            rows_2x2) as H
    by (repeat constructor; eexists; reflexivity).
  eapply Forall_forall in H; [|exact Hrow].
  eapply Forall_forall in H; [|exact Ht]. exact H.
Defined.

Lemma griddata_first_accepts (values : list Z) :
  length values = 2 * 2 ->
  is_ok (griddata_first (sample_points 2 2) values) = true.
Proof. destruct values; [discriminate | reflexivity]. Defined.

Lemma interpolate_shape_witness :
  exists grid : file,
    interpolate float_of_literal Z fmt_Z griddata_first
      "bathy.tt3" (PyInt 60) "fine.tt3" (PyInt 20) fs_interp =
      (Ok tt, <["fine.tt3" := (header_2x2 ++ grid)%list]> fs_interp) /\
    Z.of_nat (length grid) = (Z.of_nat 2 * (60 / 20))%Z /\
    Forall (fun row => Z.of_nat (length row) = (Z.of_nat 2 * (60 / 20))%Z) grid.
Proof.
  apply (interpolate_shape float_of_literal Z fmt_Z griddata_first
           "bathy.tt3" 60 "fine.tt3" 20 fs_interp header_2x2 rows_2x2 2 2);
    [lia | reflexivity | reflexivity | reflexivity | lia
    | repeat constructor | exact rows_2x2_finite
    | exact griddata_first_accepts].
Defined.

Lemma consistent_2x2 : consistent header_2x2 rows_2x2.
Proof.
  split; [reflexivity|]. exists 2. split; [reflexivity|]. by repeat constructor.
Defined.

Lemma interpolate_header_consistency_witness :
  exists grid : file,
    interpolate float_of_literal Z fmt_Z griddata_first
      "bathy.tt3" (PyInt 60) "fine.tt3" (PyInt 30) fs_interp =
      (Ok tt, <["fine.tt3" := (header_2x2 ++ grid)%list]> fs_interp) /\
    (consistent header_2x2 grid <-> (60 / 30 = 1)%Z).
Proof.
  apply (interpolate_header_consistency float_of_literal Z fmt_Z
           griddata_first "bathy.tt3" 60 "fine.tt3" 30 fs_interp header_2x2
           rows_2x2 2 2);
    [lia | reflexivity | reflexivity | reflexivity | lia
    | repeat constructor | exact rows_2x2_finite
    | exact griddata_first_accepts | exact consistent_2x2].
Defined.

(** C3 as stated fails: from the raster of two rows and two columns, whose
    header declares them, and the resolutions 60 and 30, [interpolate]
    writes four rows of four columns below the same header. *)
Lemma interpolate_header_counterexample :
  interpolate float_of_literal Z fmt_Z griddata_first
    "bathy.tt3" (PyInt 60) "fine.tt3" (PyInt 30) fs_interp =
    (Ok tt,
     <["fine.tt3" := (header_2x2 ++ replicate 4 (replicate 4 "1"))%list]>
       fs_interp) /\
  consistent header_2x2 rows_2x2 /\
  ~ consistent header_2x2 (replicate 4 (replicate 4 "1")).
Proof.
  split; [reflexivity|]. split; [exact consistent_2x2|].
  intros [H _]. discriminate H.
Qed.

Lemma interpolate_overwrites_witness :
  exists grid : file,
    interpolate float_of_literal Z fmt_Z griddata_first
      "bathy.tt3" (PyInt 60) "fine.tt3" (PyInt 30) fs_interp_out =
      (Ok tt, <["fine.tt3" := (header_2x2 ++ grid)%list]> fs_interp_out) /\
    length grid = 2 * Z.to_nat (60 / 30) /\
    snd (interpolate float_of_literal Z fmt_Z griddata_first
           "bathy.tt3" (PyInt 60) "fine.tt3" (PyInt 30) fs_interp_out)
      !! "fine.tt3" = Some (header_2x2 ++ grid)%list.
Proof.
  apply (interpolate_overwrites float_of_literal Z fmt_Z griddata_first
           "bathy.tt3" 60 "fine.tt3" 30 fs_interp_out header_2x2 rows_2x2
           [["an"; "earlier"; "run"]] 2 2);
    [lia | reflexivity | reflexivity | reflexivity | lia
    | repeat constructor | exact rows_2x2_finite
    | exact griddata_first_accepts | reflexivity].
Defined.

Lemma interpolate_truncates_witness :
  parse_data float_of_literal rows_2x2 = Ok samples_2x2 /\
  interpolate float_of_literal Z fmt_Z griddata_first
    "bathy.tt3" (PyInt 60) "fine.tt3" (PyInt 30) fs_interp =
  let x := length samples_2x2 in
  let y := length (hd [] samples_2x2) in
  match griddata_first (sample_points x y) (concat samples_2x2) with
  | Ok ip =>
      (Ok tt,
       <["fine.tt3" :=
           (header_2x2 ++
            map (map (fun p => fmt_Z (ip p)))
                (mgrid x y (x * Z.to_nat (60 / 30)) (y * Z.to_nat (60 / 30))))%list]>
         fs_interp)
  | Raise e => (Raise e, fs_interp)
  end.
Proof.
  apply (interpolate_truncates float_of_literal Z fmt_Z griddata_first
           "bathy.tt3" 60 "fine.tt3" 30 fs_interp header_2x2 rows_2x2
           values_2x2 samples_2x2 2);
    [lia | reflexivity | reflexivity | discriminate | | | ].
  - repeat constructor.
  - repeat constructor.
  - repeat constructor. all: unfold Qle, Qlt in *; simpl in *; lia.
Defined.

(** ** Existing output paths *)

(** [overlay] and [wipeout_topo] open their output for exclusive creation:
    once their loop has succeeded they raise [FileExistsError] and leave
    the file at the output path as it was. *)

(** X2. Where its two input files exist and its loop succeeds, [overlay]
    raises [FileExistsError] when a file exists at the output path, and
    leaves that file as it was. *)
Lemma overlay_refuses_existing topo_filename bathy_filename outfile nan_value
    (fs : gmap string file) (P S M old : file) :
  fs !! topo_filename = Some P ->
  fs !! bathy_filename = Some S ->
  overlay_cells nan_value S P = Ok M ->
  fs !! outfile = Some old ->
  overlay topo_filename bathy_filename outfile nan_value fs =
    (Raise FileExistsError, fs).
Proof.
  intros HP HS HM Hout.
  by rewrite (overlay_run _ _ _ _ _ _ _ HP HS), HM, Hout.
Qed.

(** X12. Where its input file exists and its loop succeeds,
    [wipeout_topo] raises [FileExistsError] when a file exists at the
    output path, and leaves that file as it was. *)
Lemma wipeout_refuses_existing float_of_str filename outfile val
    (fs : gmap string file) (data out old : file) :
  fs !! filename = Some data ->
  wipeout_cells float_of_str val data = Ok out ->
  fs !! outfile = Some old ->
  wipeout_topo float_of_str filename outfile val fs =
    (Raise FileExistsError, fs).
Proof.
  intros Hd Hw Hout. by rewrite (wipeout_run _ _ _ _ _ _ Hd), Hw, Hout.
Qed.

(** ** slice_region *)

Section SliceRegion.

Variable Topography : Type.
Variable region : Type.
Variable topo_read : file -> res Topography.
Variable topo_crop : Topography -> region -> res Topography.
Variable topo_extent : Topography -> region.
Variable topo_write : Topography -> file.
Variable plot_shores : Topography -> Topography -> res unit.

(** C9. Whatever the filter, [slice_region] crops the bathymetry to the
    filter and the topography to the extent of the cropped bathymetry:
    where the two files are read, the two crops succeed and the plot,
    if asked for, succeeds, the file written at [topo_outfile] is the
    topography cropped to that extent. *)
Theorem slice_region_second_crop topo_outfile bathy_outfile bathy_filename
    topo_filename shore_plots (filter : region) (fs : gmap string file)
    (tf bf : file) (topo_file bathy_file bathy_small topo_small : Topography) :
  fs !! topo_filename = Some tf ->
  fs !! bathy_filename = Some bf ->
  topo_read tf = Ok topo_file ->
  topo_read bf = Ok bathy_file ->
  topo_crop bathy_file filter = Ok bathy_small ->
  topo_crop topo_file (topo_extent bathy_small) = Ok topo_small ->
  (shore_plots = true -> plot_shores topo_small bathy_small = Ok tt) ->
  slice_region Topography region topo_read topo_crop topo_extent topo_write
    plot_shores topo_outfile bathy_outfile bathy_filename topo_filename
    shore_plots filter fs =
  (Ok tt,
   <[topo_outfile := topo_write topo_small]>
     (<[bathy_outfile := topo_write bathy_small]> fs)).
Proof.
  intros Htf Hbf Hrt Hrb Hcb Hct Hplot.
  unfold slice_region, read_topography, io_bind, io_lift, open_r, open_w.
  rewrite Htf, Hrt, Hbf, Hrb, Hcb, Hct.
  destruct shore_plots; [by rewrite Hplot | done].
Qed.

End SliceRegion.

Lemma slice_region_second_crop_witness :
  slice_region profile (nat * nat) profile_read profile_crop profile_extent
    profile_write profile_plot "topo_small.tt3" "bathy_small.tt3" "etopo.tt3"
    "srtm.asc" false (1, 5) fs_slice =
  (Ok tt,
   <["topo_small.tt3" := [["2"; "-9999"]; ["3"; "12"]; ["4"; "40"]]]>
     (<["bathy_small.tt3" := [["2"; "-300"]; ["4"; "35"]]]> fs_slice)).
Proof.
  apply (slice_region_second_crop profile (nat * nat) profile_read
           profile_crop profile_extent profile_write profile_plot
           "topo_small.tt3" "bathy_small.tt3" "etopo.tt3" "srtm.asc" false
           (1, 5) fs_slice
           [["0"; "-9999"]; ["1"; "-9999"]; ["2"; "-9999"];
            ["3"; "12"]; ["4"; "40"]; ["5"; "55"]; ["6"; "63"]]
           [["0"; "-900"]; ["2"; "-300"]; ["4"; "35"]; ["6"; "60"]]
           [(0, "-9999"); (1, "-9999"); (2, "-9999"); (3, "12"); (4, "40");
            (5, "55"); (6, "63")]
           [(0, "-900"); (2, "-300"); (4, "35"); (6, "60")]
           [(2, "-300"); (4, "35")]
           [(2, "-9999"); (3, "12"); (4, "40")]);
    [reflexivity | reflexivity | reflexivity | reflexivity | reflexivity
    | reflexivity | discriminate].
Defined.

(** On this input the extent of the cropped bathymetry, from 2 to 4, is
    narrower than the filter, from 1 to 5, and the topography cropped to
    the filter would have kept two more cells. *)
Example slice_region_extent_differs :
  profile_crop [(0, "-9999"); (1, "-9999"); (2, "-9999"); (3, "12");
                (4, "40"); (5, "55"); (6, "63")] (1, 5) =
  Ok [(1, "-9999"); (2, "-9999"); (3, "12"); (4, "40"); (5, "55")].
Proof. reflexivity. Qed.

(** ** Exactness on the example inputs *)




(** * Further properties of the stages *)

(** ** overlay *)

Lemma imapM_id {A : Type} (h : nat -> A -> res A) k l :
  (forall n x, l !! n = Some x -> h (k + n) x = Ok x) ->
  imapM h k l = Ok l.
Proof.
  revert k. induction l as [|a l IH]; intros k H; simpl; [done|].
  pose proof (H 0 a eq_refl) as Ha. rewrite Nat.add_0_r in Ha. rewrite Ha.
  simpl. rewrite (IH (S k)); [done|].
  intros n x Hn. rewrite Nat.add_succ_comm. by apply (H (S n)).
Qed.

Lemma update_grid_id g off (d : file) :
  (forall i j t, cell d i j = Some t -> g (off + i) j t = Ok t) ->
  update_grid g off d = Ok d.
Proof.
  intros H. apply imapM_id. intros i row Hrow.
  apply imapM_id. intros j t Ht. apply H. unfold cell. by rewrite Hrow.
Qed.

Lemma update_grid_Ok_rev g off (d d' : file) :
  update_grid g off d = Ok d' ->
  forall i j t', cell d' i j = Some t' ->
    exists t, cell d i j = Some t /\ g (off + i) j t = Ok t'.
Proof.
  intros H i j t' Hc.
  pose proof (update_grid_Ok _ _ _ _ H) as (_ & Hshape & Hcells).
  assert (exists t, cell d i j = Some t) as [t Ht].
  { specialize (Hshape i). unfold cell in *.
    destruct (d' !! i) as [row'|]; simpl in Hc; [|done].
    destruct (d !! i) as [row|]; simpl in *; [|done].
    injection Hshape as Hlen. apply lookup_lt_is_Some.
    rewrite <- Hlen. by eapply lookup_lt_Some. }
  exists t. split; [done|].
  destruct (Hcells i j t Ht) as (t'' & Hg & Hc'). congruence.
Qed.

Lemma overlay_cells_ok_iff nan_value (S P : file) :
  is_ok (overlay_cells nan_value S P) = true <->
  forall i j, cell P i j = Some nan_value -> is_Some (cell S i (j + 20)).
Proof.
  rewrite overlay_cells_spec.
  fold (update_grid (overlay_cell nan_value S) 0 P). split.
  - destruct (update_grid _ 0 P) as [M|] eqn:HM; [|done]. intros _ i j Hc.
    apply update_grid_Ok in HM as (_ & _ & Hcells).
    destruct (Hcells i j _ Hc) as (t' & Ht' & _).
    apply overlay_cell_Ok in Ht'. simpl in Ht'.
    rewrite String.eqb_refl in Ht'. by rewrite <- Ht'.
  - intros Hsrc.
    destruct (update_grid_all_Ok (overlay_cell nan_value S) 0 P) as [M HM];
      [|by rewrite HM].
    intros i j t Hc. simpl.
    destruct (overlay_cell nan_value S i j t) as [t'|e] eqn:Ht; [by eexists|].
    apply overlay_cell_Raise in Ht as (_ & -> & Hnone).
    destruct (Hsrc i j Hc) as [b Hb]. congruence.
Qed.

Lemma cell_is_Some_shape (d : file) i k :
  is_Some (cell d i k) <-> exists n, shape d !! i = Some n /\ k < n.
Proof.
  unfold cell, shape. rewrite list_lookup_fmap.
  destruct (d !! i) as [row|]; simpl.
  - rewrite lookup_lt_is_Some. split.
    + intros H. by exists (length row).
    + by intros (n & [= <-] & H).
  - split; [by intros [? ?] | by intros (? & ? & _)].
Qed.

(** X1. A run of [overlay] either raises and leaves the file system as it
    was, or creates one file, at an output path that was free: no existing
    file is ever changed and nothing is written by a run that fails. *)
Theorem overlay_outcome topo_filename bathy_filename outfile nan_value
    (fs : gmap string file) :
  (exists e, overlay topo_filename bathy_filename outfile nan_value fs =
               (Raise e, fs)) \/
  (exists M, fs !! outfile = None /\
             overlay topo_filename bathy_filename outfile nan_value fs =
               (Ok tt, <[outfile := M]> fs)).
Proof.
  unfold overlay, io_bind, open_r, io_lift, open_x.
  destruct (fs !! bathy_filename) as [S|]; [|left; by eexists].
  destruct (fs !! topo_filename) as [P|]; [|left; by eexists].
  destruct (overlay_cells nan_value S P) as [M|e]; [|left; by eexists].
  destruct (fs !! outfile) as [old|] eqn:Hout; [left; by eexists|].
  right. by exists M.
Qed.

Lemma overlay_refuses_existing_witness :
  overlay "topo.tt3" "bathy.tt3" "merged.tt3" overlay_default_nan_value
    fs_overlay_out = (Raise FileExistsError, fs_overlay_out).
Proof.
  apply (overlay_refuses_existing "topo.tt3" "bathy.tt3" "merged.tt3"
           overlay_default_nan_value fs_overlay_out [topo_row21]
           [bathy_row21] ["120" :: map pretty (seq 1 20)]
           [["an"; "earlier"; "run"]]); reflexivity.
Defined.

(** X3. For two grids of the same shape the loop of [overlay] succeeds
    exactly when no no-data cell of the topography lies in the last 20
    columns of its row. *)
Theorem overlay_same_shape nan_value (P S : file) :
  shape P = shape S ->
  (is_ok (overlay_cells nan_value S P) = true <->
   forall i j, cell P i j = Some nan_value -> is_Some (cell P i (j + 20))).
Proof.
  intros Hshape. rewrite overlay_cells_ok_iff.
  split; intros H i j Hc; specialize (H i j Hc);
    apply cell_is_Some_shape; apply cell_is_Some_shape in H;
    [by rewrite Hshape | by rewrite <- Hshape].
Qed.

Lemma overlay_same_shape_witness :
  is_ok (overlay_cells "-9999" bathy_2x2 topo_2x2) = true <->
  forall i j, cell topo_2x2 i j = Some "-9999" ->
              is_Some (cell topo_2x2 i (j + 20)).
Proof.
  apply (overlay_same_shape "-9999" topo_2x2 bathy_2x2). reflexivity.
Defined.

(** X4. A topography without any no-data token comes out of the loop of
    [overlay] as it went in, whatever the bathymetry is: no cell of the
    bathymetry is read. *)
Theorem overlay_without_sentinel nan_value (P S : file) :
  (forall i j, cell P i j <> Some nan_value) ->
  overlay_cells nan_value S P = Ok P.
Proof.
  intros H. rewrite overlay_cells_spec.
  apply (update_grid_id (overlay_cell nan_value S) 0).
  intros i j t Hc. unfold overlay_cell.
  destruct (String.eqb t nan_value) eqn:Ht; [|done].
  apply String.eqb_eq in Ht as ->. by destruct (H i j).
Qed.

Lemma overlay_without_sentinel_witness :
  overlay_cells "-9999" [] [["1"; "4"]] = Ok [["1"; "4"]].
Proof.
  apply (overlay_without_sentinel "-9999" [["1"; "4"]] []).
  intros [|i] j; [|discriminate].
  destruct j as [|[|j]]; discriminate.
Defined.

(** X5. Where the bathymetry holds no no-data token, the grid that the
    loop of [overlay] produces holds none either: every gap of the
    topography has been filled. *)
Theorem overlay_fills_every_gap nan_value (P S M : file) :
  overlay_cells nan_value S P = Ok M ->
  (forall i j, cell S i j <> Some nan_value) ->
  forall i j, cell M i j <> Some nan_value.
Proof.
  rewrite overlay_cells_spec. intros HM HS i j Hc.
  destruct (update_grid_Ok_rev _ _ _ _ HM i j _ Hc) as (t & _ & Ht).
  apply overlay_cell_Ok in Ht. simpl in Ht.
  destruct (String.eqb t nan_value) eqn:E.
  - by destruct (HS i (j + 20)).
  - injection Ht as <-. by rewrite String.eqb_refl in E.
Qed.

Lemma overlay_fills_every_gap_witness :
  cell [["20"; "4"]] 0 0 <> Some "-9999".
Proof.
  apply (overlay_fills_every_gap "-9999" [["-9999"; "4"]]
           [map pretty (seq 0 21)] [["20"; "4"]]); [reflexivity|].
  intros [|i'] j'; [|discriminate].
  do 21 (destruct j' as [|j']; [discriminate|]). discriminate.
Defined.

(** ** wipeout_topo *)

Lemma wipeout_cells_Ok_inv float_of_str val (data out : file) :
  wipeout_cells float_of_str val data = Ok out ->
  exists rows,
    update_grid (wipeout_cell float_of_str val) 7 (drop 7 data) = Ok rows /\
    out = (take 7 data ++ rows)%list.
Proof.
  rewrite wipeout_cells_spec.
  fold (update_grid (wipeout_cell float_of_str val) 7 (drop 7 data)).
  destruct (update_grid _ 7 (drop 7 data)) as [rows|]; [|done].
  intros [= <-]. by exists rows.
Qed.

Lemma drop_take_app_7 (data rows : file) :
  length rows = length (drop 7 data) ->
  drop 7 (take 7 data ++ rows) = rows /\
  take 7 (take 7 data ++ rows) = take 7 data.
Proof.
  intros Hlen. rewrite length_drop in Hlen.
  destruct (decide (7 <= length data)) as [Hge|Hlt].
  - split.
    + rewrite drop_app_length'; [done | rewrite length_take; lia].
    + rewrite take_app_length'; [done | rewrite length_take; lia].
  - assert (rows = []) as -> by (apply length_zero_iff_nil; lia).
    rewrite app_nil_r. split.
    + apply drop_ge. rewrite length_take. lia.
    + by rewrite take_take, Nat.min_id.
Qed.

(** X6. A file of at most seven lines, that is a header and at most one
    line of the grid, comes out of the loop of [wipeout_topo] unchanged,
    whatever its tokens are: none of them is even read as a number. *)
Theorem wipeout_short_file float_of_str val (data : file) :
  length data <= 7 -> wipeout_cells float_of_str val data = Ok data.
Proof.
  intros Hlen. rewrite wipeout_cells_spec.
  rewrite drop_ge by done. rewrite take_ge by done. simpl.
  by rewrite app_nil_r.
Qed.

Lemma wipeout_short_file_witness :
  wipeout_cells float_of_literal "-2" (header_1x2 ++ [["5"; "land"]]) =
    Ok (header_1x2 ++ [["5"; "land"]])%list.
Proof.
  apply (wipeout_short_file float_of_literal "-2"
           (header_1x2 ++ [["5"; "land"]])).
  simpl. lia.
Defined.

Lemma wipeout_cells_take_7 float_of_str val (data out : file) :
  wipeout_cells float_of_str val data = Ok out ->
  take 7 out = take 7 data /\ shape out = shape data.
Proof.
  intros H. apply wipeout_cells_Ok_inv in H as (rows & Hrows & ->).
  apply update_grid_Ok in Hrows as (Hlen & Hshape & _).
  destruct (drop_take_app_7 data rows Hlen) as [_ Htake].
  split; [done|]. unfold shape. rewrite map_app.
  rewrite <- (take_drop 7 data) at 2. rewrite map_app. f_equal.
  by apply shape_eq.
Qed.

(** X7. The first seven lines of the file, the six of the header and the
    first line of the grid, are the same after the loop of [wipeout_topo]
    as before it. *)
Theorem wipeout_first_seven_lines float_of_str val (data out : file) i :
  wipeout_cells float_of_str val data = Ok out ->
  i < 7 -> out !! i = data !! i.
Proof.
  intros H Hi. apply wipeout_cells_take_7 in H as [Htake _].
  rewrite <- (lookup_take_lt out 7 i) by done.
  rewrite Htake. by apply lookup_take_lt.
Qed.

Lemma wipeout_first_seven_lines_witness :
  raster_wiped !! 6 = raster_wipe !! 6.
Proof.
  apply (wipeout_first_seven_lines float_of_literal "-2" raster_wipe
           raster_wiped 6); [reflexivity | lia].
Defined.

Lemma wipeout_cells_is_ok float_of_str val (data : file) :
  is_ok (wipeout_cells float_of_str val data) = true <->
  forall i j t, 7 <= i -> cell data i j = Some t ->
    is_ok (float_of_str t) = true.
Proof.
  rewrite wipeout_cells_spec.
  fold (update_grid (wipeout_cell float_of_str val) 7 (drop 7 data)). split.
  - destruct (update_grid _ 7 (drop 7 data)) as [rows|] eqn:Hrows; [|done].
    intros _ i j t Hi Hc.
    apply update_grid_Ok in Hrows as (_ & _ & Hcells).
    replace i with (7 + (i - 7)) in Hc by lia. rewrite <- cell_drop in Hc.
    destruct (Hcells _ _ _ Hc) as (t' & Ht' & _).
    apply wipeout_cell_Ok in Ht' as (f & -> & _). done.
  - intros H.
    destruct (update_grid_all_Ok (wipeout_cell float_of_str val) 7
                (drop 7 data)) as [rows Hrows]; [|by rewrite Hrows].
    intros i j t Hc. rewrite cell_drop in Hc.
    specialize (H (7 + i) j t ltac:(lia) Hc). unfold wipeout_cell.
    destruct (float_of_str t); [by eexists | done].
Qed.

(** X8. Where the input file exists and the output path is free,
    [wipeout_topo] succeeds exactly when every token from the eighth line
    on is a float literal; the tokens of the first seven lines are free. *)
Theorem wipeout_succeeds_iff float_of_str filename outfile val
    (fs : gmap string file) (data : file) :
  fs !! filename = Some data ->
  fs !! outfile = None ->
  (fst (wipeout_topo float_of_str filename outfile val fs) = Ok tt <->
   forall i j t, 7 <= i -> cell data i j = Some t ->
     is_ok (float_of_str t) = true).
Proof.
  intros Hd Hout. rewrite <- (wipeout_cells_is_ok float_of_str val).
  rewrite (wipeout_run _ _ _ _ _ _ Hd), Hout.
  destruct (wipeout_cells float_of_str val data); simpl; [done|].
  split; discriminate.
Qed.

Lemma wipeout_succeeds_iff_witness :
  fst (wipeout_topo float_of_literal "interpolated.tt3" "wiped.tt3" "-2"
         fs_wipe) = Ok tt <->
  forall i j t, 7 <= i -> cell raster_wipe i j = Some t ->
    is_ok (float_of_literal t) = true.
Proof.
  apply (wipeout_succeeds_iff float_of_literal "interpolated.tt3"
           "wiped.tt3" "-2" fs_wipe raster_wipe); reflexivity.
Defined.

(** X9. Masking twice is masking once: where the replacement is itself a
    float literal, the loop of [wipeout_topo] leaves its own output
    unchanged. *)
Theorem wipeout_idempotent float_of_str val (data out : file) :
  wipeout_cells float_of_str val data = Ok out ->
  is_ok (float_of_str val) = true ->
  wipeout_cells float_of_str val out = Ok out.
Proof.
  intros H Hval. apply wipeout_cells_Ok_inv in H as (rows & Hrows & ->).
  pose proof (update_grid_Ok _ _ _ _ Hrows) as (Hlen & _ & _).
  destruct (drop_take_app_7 data rows Hlen) as [Hdrop Htake].
  rewrite wipeout_cells_spec, Hdrop, Htake.
  fold (update_grid (wipeout_cell float_of_str val) 7 rows).
  rewrite update_grid_id; [done|].
  intros i j t' Hc.
  destruct (update_grid_Ok_rev _ _ _ _ Hrows i j t' Hc) as (t & _ & Ht).
  apply wipeout_cell_Ok in Ht as (f & Hf & ->). unfold wipeout_cell.
  destruct (float_ge0 f) eqn:Hge.
  - destruct (float_of_str val) as [fv|]; [|done]. simpl.
    by destruct (float_ge0 fv).
  - by rewrite Hf; simpl; rewrite Hge.
Qed.

Lemma wipeout_idempotent_witness :
  wipeout_cells float_of_literal "-2" raster_wiped = Ok raster_wiped.
Proof.
  apply (wipeout_idempotent float_of_literal "-2" raster_wipe raster_wiped);
    reflexivity.
Defined.

(** X10. Where the replacement is a float literal below 0, as the default
    ["-2"], no value greater than or equal to 0 is left from the eighth
    line on after the loop of [wipeout_topo]. *)
Theorem wipeout_nothing_above_sea_level float_of_str val fv (data out : file)
    i j t :
  wipeout_cells float_of_str val data = Ok out ->
  float_of_str val = Ok fv -> float_ge0 fv = false ->
  7 <= i -> cell out i j = Some t ->
  exists f, float_of_str t = Ok f /\ float_ge0 f = false.
Proof.
  intros H Hval Hneg Hi Hc.
  apply wipeout_cells_Ok_inv in H as (rows & Hrows & ->).
  pose proof (update_grid_Ok _ _ _ _ Hrows) as (Hlen & _ & _).
  destruct (drop_take_app_7 data rows Hlen) as [Hdrop _].
  replace i with (7 + (i - 7)) in Hc by lia.
  rewrite <- cell_drop, Hdrop in Hc.
  destruct (update_grid_Ok_rev _ _ _ _ Hrows _ _ _ Hc) as (t0 & _ & Ht).
  apply wipeout_cell_Ok in Ht as (f & Hf & ->).
  destruct (float_ge0 f) eqn:Hge; [by exists fv | by exists f].
Qed.

Lemma wipeout_nothing_above_sea_level_witness :
  exists f, float_of_literal "-2" = Ok f /\ float_ge0 f = false.
Proof.
  apply (wipeout_nothing_above_sea_level float_of_literal "-2"
           (Ffin (-2 # 1)) raster_wipe raster_wiped 7 0 "-2");
    [reflexivity | reflexivity | reflexivity | lia | reflexivity].
Defined.

(** X11. A run of [wipeout_topo] either raises and leaves the file system
    as it was, or creates one file, at an output path that was free. *)
Theorem wipeout_topo_outcome float_of_str filename outfile val
    (fs : gmap string file) :
  (exists e, wipeout_topo float_of_str filename outfile val fs =
               (Raise e, fs)) \/
  (exists out, fs !! outfile = None /\
               wipeout_topo float_of_str filename outfile val fs =
                 (Ok tt, <[outfile := out]> fs)).
Proof.
  unfold wipeout_topo, io_bind, open_r, io_lift, open_x.
  destruct (fs !! filename) as [data|]; [|left; by eexists].
  destruct (wipeout_cells float_of_str val data) as [out|e];
    [|left; by eexists].
  destruct (fs !! outfile) as [old|] eqn:Hout; [left; by eexists|].
  right. by exists out.
Qed.

Lemma wipeout_refuses_existing_witness :
  wipeout_topo float_of_literal "interpolated.tt3" "wiped.tt3" "-2"
    fs_wipe_out = (Raise FileExistsError, fs_wipe_out).
Proof.
  apply (wipeout_refuses_existing float_of_literal "interpolated.tt3"
           "wiped.tt3" "-2" fs_wipe_out raster_wipe raster_wiped
           [["an"; "earlier"; "run"]]); reflexivity.
Defined.

(** ** interpolate *)

Section InterpolateEdges.

Variable float_of_str : string -> res pyfloat.
Variable V : Type.
Variable fmt : V -> string.
Variable griddata_linear : list (float * float) -> list Z -> res (float * float -> V).

(** X13. A run of [interpolate] either raises and leaves the file system
    as it was, or writes one file, at the output path: the first six lines
    of the input above a grid. *)
Theorem interpolate_outcome in_filename res_in out_filename res_out
    (fs : gmap string file) :
  (exists e, interpolate float_of_str V fmt griddata_linear
               in_filename res_in out_filename res_out fs = (Raise e, fs)) \/
  (exists lines grid,
     fs !! in_filename = Some lines /\
     interpolate float_of_str V fmt griddata_linear
       in_filename res_in out_filename res_out fs =
       (Ok tt, <[out_filename := (take 6 lines ++ grid)%list]> fs)).
Proof.
  destruct (check_resolutions res_in res_out) as [[a b]|e] eqn:Hcheck.
  2:{ left. exists e. by apply interpolate_check_fails. }
  apply check_resolutions_Ok in Hcheck as (-> & -> & Hab).
  rewrite interpolate_run by done.
  destruct (fs !! in_filename) as [lines|]; [|left; by eexists].
  destruct (parse_data float_of_str (drop 6 lines)) as [data|];
    [|left; by eexists].
  destruct (resample V griddata_linear (a / b) data) as [grid|];
    [|left; by eexists].
  right. by exists lines, (map (map fmt) grid).
Qed.

(** X14. A file of at most six lines, a header without a grid, makes
    [interpolate] raise the [ValueError] of [np.hstack]; nothing is
    written. *)
Theorem interpolate_header_only in_filename a out_filename b
    (fs : gmap string file) (lines : file) :
  (1 <= b <= a)%Z ->
  fs !! in_filename = Some lines ->
  length lines <= 6 ->
  interpolate float_of_str V fmt griddata_linear
    in_filename (PyInt a) out_filename (PyInt b) fs =
    (Raise (ValueError "need at least one array to concatenate"), fs).
Proof.
  intros Hab Hin Hlen. rewrite interpolate_run, Hin by done.
  by rewrite drop_ge by done.
Qed.

(** X15. A grid in which every token is a float literal and one of them
    is a NaN or an infinity cannot be interpolated: [interpolate] raises
    the [ValueError] or the [OverflowError] of [int] and writes nothing. *)
Theorem interpolate_rejects_non_finite in_filename a out_filename b
    (fs : gmap string file) (header rows : file) i j t :
  (1 <= b <= a)%Z ->
  fs !! in_filename = Some (header ++ rows)%list ->
  length header = 6 ->
  (forall i j t, cell rows i j = Some t -> is_ok (float_of_str t) = true) ->
  cell rows i j = Some t ->
  (float_of_str t = Ok Fnan \/ exists s, float_of_str t = Ok (Finf s)) ->
  exists e,
    (e = ValueError "cannot convert float NaN to integer" \/
     e = OverflowError) /\
    interpolate float_of_str V fmt griddata_linear
      in_filename (PyInt a) out_filename (PyInt b) fs = (Raise e, fs).
Proof.
  intros Hab Hin Hh Hfloat Hc Ht. rewrite interpolate_run, Hin by done.
  rewrite drop_app_length' by done.
  destruct (parse_data float_of_str rows) as [data|e] eqn:Hp.
  - exfalso. apply mapM_Ok_inv in Hp as [_ Hrows]. unfold cell in Hc.
    destruct (rows !! i) as [row|] eqn:Hrow; simpl in Hc; [|done].
    destruct (Hrows i row Hrow) as (zs & Hzs & _).
    apply mapM_Ok_inv in Hzs as [_ Hcells].
    destruct (Hcells j t Hc) as (z & Hz & _). unfold int_float in Hz.
    destruct Ht as [Ht|[s Ht]]; by rewrite Ht in Hz.
  - exists e. split; [|done].
    apply mapM_Raise_inv in Hp as (row & Hrow & Hp).
    apply mapM_Raise_inv in Hp as (t' & Ht' & Hp).
    apply list_elem_of_lookup in Hrow as [i' Hrow].
    apply list_elem_of_lookup in Ht' as [j' Ht'].
    specialize (Hfloat i' j' t'). unfold cell in Hfloat.
    rewrite Hrow in Hfloat. specialize (Hfloat Ht').
    unfold int_float in Hp. destruct (float_of_str t') as [f|]; [|done].
    destruct f; simpl in Hp; [| |done]; injection Hp as <-; auto.
Qed.

(** X16. Where [res_in] is less than twice [res_out], the two being equal
    included, the floor division gives the scale 1 and the grid that
    [interpolate] writes has the shape of the input grid. *)
Theorem interpolate_scale_one in_filename a out_filename b
    (fs : gmap string file) (header rows : file) r c :
  (1 <= b <= a)%Z -> (a < 2 * b)%Z ->
  fs !! in_filename = Some (header ++ rows)%list ->
  length header = 6 ->
  length rows = r -> 1 <= r ->
  Forall (fun row => length row = c) rows ->
  (forall row t, row ∈ rows -> t ∈ row ->
     exists q, float_of_str t = Ok (Ffin q)) ->
  (forall values, length values = r * c ->
     is_ok (griddata_linear (sample_points r c) values) = true) ->
  exists grid : file,
    interpolate float_of_str V fmt griddata_linear
      in_filename (PyInt a) out_filename (PyInt b) fs =
      (Ok tt, <[out_filename := (header ++ grid)%list]> fs) /\
    shape grid = shape rows.
Proof.
  intros Hab Hlt Hin Hh Hr Hr1 Hc Hfin Hgrid.
  destruct (interpolate_success float_of_str V fmt griddata_linear
              in_filename a out_filename b fs header rows r c)
    as (grid & Hrun & Hrows & Hcols); try done.
  assert (a / b = 1)%Z as Hone.
  { symmetry. apply (Z.div_unique a b 1 (a - b)); lia. }
  rewrite Hone in Hrows, Hcols. change (Z.to_nat 1) with 1 in *.
  rewrite Nat.mul_1_r in Hrows, Hcols.
  exists (map (map fmt) grid). split; [done|].
  unfold shape. rewrite <- list.list_fmap_compose.
  apply list_eq_same_length with r.
  - by rewrite length_map.
  - by rewrite length_map.
  - intros n x y Hn. rewrite !list_lookup_fmap.
    destruct (grid !! n) as [grow|] eqn:Hg; [|done].
    destruct (rows !! n) as [row|] eqn:Hrw; [|done]. simpl.
    intros [= <-] [= <-]. rewrite length_map.
    rewrite (Forall_lookup_1 _ _ _ _ Hcols Hg).
    by rewrite (Forall_lookup_1 _ _ _ _ Hc Hrw).
Qed.

End InterpolateEdges.

Lemma interpolate_header_only_witness :
  interpolate float_of_literal Z fmt_Z griddata_first
    "bathy.tt3" (PyInt 60) "fine.tt3" (PyInt 30) fs_header_only =
    (Raise (ValueError "need at least one array to concatenate"),
     fs_header_only).
Proof.
  apply (interpolate_header_only float_of_literal Z fmt_Z griddata_first
           "bathy.tt3" 60 "fine.tt3" 30 fs_header_only header_2x2);
    [lia | reflexivity | simpl; lia].
Defined.

Lemma interpolate_rejects_non_finite_witness :
  exists e,
    (e = ValueError "cannot convert float NaN to integer" \/
     e = OverflowError) /\
    interpolate float_of_literal Z fmt_Z griddata_first
      "bathy.tt3" (PyInt 60) "fine.tt3" (PyInt 30) fs_nan = (Raise e, fs_nan).
Proof.
  apply (interpolate_rejects_non_finite float_of_literal Z fmt_Z
           griddata_first "bathy.tt3" 60 "fine.tt3" 30 fs_nan header_2x2
           [["1"; "nan"]; ["3"; "4"]] 0 1 "nan");
    [lia | reflexivity | reflexivity | | reflexivity | by left].
  intros [|[|i]] [|[|j]] t Hc; try discriminate Hc;
    injection Hc as <-; reflexivity.
Defined.

Lemma interpolate_scale_one_witness :
  exists grid : file,
    interpolate float_of_literal Z fmt_Z griddata_first
      "bathy.tt3" (PyInt 50) "fine.tt3" (PyInt 30) fs_interp =
      (Ok tt, <["fine.tt3" := (header_2x2 ++ grid)%list]> fs_interp) /\
    shape grid = shape rows_2x2.
Proof.
  apply (interpolate_scale_one float_of_literal Z fmt_Z griddata_first
           "bathy.tt3" 50 "fine.tt3" 30 fs_interp header_2x2 rows_2x2 2 2);
    [lia | lia | reflexivity | reflexivity | reflexivity | lia
    | repeat constructor | exact rows_2x2_finite
    | exact griddata_first_accepts].
Defined.

(** ** interpolate followed by wipeout_topo *)

Section InterpolateThenWipeout.

Variable float_of_str : string -> res pyfloat.
Variable V : Type.
Variable fmt : V -> string.
Variable griddata_linear : list (float * float) -> list Z -> res (float * float -> V).

(** X19. When [wipeout_topo] is run on the file that [interpolate] has
    written, as their default file names arrange, it succeeds and keeps the
    header, the shape of the grid and the first line of the interpolated
    grid, which is never masked. *)
Theorem interpolate_then_wipeout in_filename a mid_filename b outfile val
    (fs : gmap string file) (header rows : file) r c :
  (1 <= b <= a)%Z ->
  fs !! in_filename = Some (header ++ rows)%list ->
  length header = 6 ->
  length rows = r -> 1 <= r ->
  Forall (fun row => length row = c) rows ->
  (forall row t, row ∈ rows -> t ∈ row ->
     exists q, float_of_str t = Ok (Ffin q)) ->
  (forall values, length values = r * c ->
     is_ok (griddata_linear (sample_points r c) values) = true) ->
  (forall v, is_ok (float_of_str (fmt v)) = true) ->
  outfile <> mid_filename ->
  fs !! outfile = None ->
  exists grid masked : file,
    io_bind
      (interpolate float_of_str V fmt griddata_linear
         in_filename (PyInt a) mid_filename (PyInt b))
      (fun _ => wipeout_topo float_of_str mid_filename outfile val) fs =
      (Ok tt,
       <[outfile := (header ++ masked)%list]>
         (<[mid_filename := (header ++ grid)%list]> fs)) /\
    shape masked = shape grid /\
    is_Some (grid !! 0) /\
    masked !! 0 = grid !! 0.
Proof.
  intros Hab Hin Hh Hr Hr1 Hc Hfin Hgrid Hfmt Hne Hout.
  destruct (interpolate_success float_of_str V fmt griddata_linear
              in_filename a mid_filename b fs header rows r c)
    as (grid & Hrun & Hrows & Hcols); try done.
  unfold io_bind. rewrite Hrun.
  set (g := map (map fmt) grid) in *.
  rewrite (wipeout_run _ _ _ _ _ (header ++ g)%list)
    by apply lookup_insert_eq.
  rewrite lookup_insert_ne by done. rewrite Hout.
  destruct (wipeout_cells float_of_str val (header ++ g)) as [out|e] eqn:Hw.
  2:{ assert (is_ok (wipeout_cells float_of_str val (header ++ g)) = true)
        as Hok; [|by rewrite Hw in Hok].
      apply wipeout_cells_is_ok. intros i j t Hi Ht. unfold cell in Ht.
      rewrite lookup_app_r in Ht by lia.
      destruct (g !! (i - length header)) as [row|] eqn:Hrow; [|done].
      simpl in Ht. unfold g in Hrow. rewrite list_lookup_fmap in Hrow.
      destruct (grid !! (i - length header)) as [vs|]; [|done].
      injection Hrow as <-. rewrite list_lookup_fmap in Ht.
      destruct (vs !! j) as [v|]; [|done]. injection Ht as <-. apply Hfmt. }
  apply wipeout_cells_take_7 in Hw as [Htake Hshape].
  assert (take 6 out = header) as Hhead.
  { replace (take 6 out) with (take 6 (take 7 out))
      by (by rewrite take_take).
    rewrite Htake, take_take. by apply take_app_length'. }
  assert (length out = length (header ++ g)) as Hlen.
  { unfold shape in Hshape. apply (f_equal length) in Hshape.
    by rewrite !length_map in Hshape. }
  assert (1 <= a / b)%Z as Hs by (apply Z.div_le_lower_bound; lia).
  assert (0 < length grid) as Hpos by (rewrite Hrows; nia).
  exists g, (drop 6 out).
  replace (header ++ drop 6 out)%list with out
    by (rewrite <- Hhead; by rewrite take_drop).
  split; [done|]. split; [|split].
  - unfold shape in *. rewrite <- (take_drop 6 out) in Hshape.
    rewrite Hhead, !map_app in Hshape. by apply app_inv_head in Hshape.
  - apply lookup_lt_is_Some. unfold g. rewrite length_map. lia.
  - rewrite lookup_drop. simpl.
    rewrite <- (lookup_take_lt out 7 6) by lia. rewrite Htake.
    rewrite lookup_take_lt by lia. rewrite lookup_app_r by lia.
    by rewrite Hh.
Qed.

End InterpolateThenWipeout.

Lemma fmt_sign_float v : is_ok (float_of_literal (fmt_sign v)) = true.
Proof. by destruct v. Defined.

Lemma griddata_sign_accepts (values : list Z) :
  length values = 2 * 2 ->
  is_ok (griddata_sign (sample_points 2 2) values) = true.
Proof. reflexivity. Defined.

Lemma interpolate_then_wipeout_witness :
  exists grid masked : file,
    io_bind
      (interpolate float_of_literal bool fmt_sign griddata_sign
         "bathy.tt3" (PyInt 60) "fine.tt3" (PyInt 30))
      (fun _ => wipeout_topo float_of_literal "fine.tt3" "wiped.tt3" "-2")
      fs_interp =
      (Ok tt,
       <["wiped.tt3" := (header_2x2 ++ masked)%list]>
         (<["fine.tt3" := (header_2x2 ++ grid)%list]> fs_interp)) /\
    shape masked = shape grid /\
    is_Some (grid !! 0) /\
    masked !! 0 = grid !! 0.
Proof.
  apply (interpolate_then_wipeout float_of_literal bool fmt_sign
           griddata_sign "bathy.tt3" 60 "fine.tt3" 30 "wiped.tt3" "-2"
           fs_interp header_2x2 rows_2x2 2 2);
    [lia | reflexivity | reflexivity | reflexivity | lia
    | repeat constructor | exact rows_2x2_finite
    | exact griddata_sign_accepts | exact fmt_sign_float
    | discriminate | reflexivity].
Defined.

(** ** slice_region *)

Section SliceRegionEdges.

Variable Topography : Type.
Variable region : Type.
Variable topo_read : file -> res Topography.
Variable topo_crop : Topography -> region -> res Topography.
Variable topo_extent : Topography -> region.
Variable topo_write : Topography -> file.
Variable plot_shores : Topography -> Topography -> res unit.

(** X20. [slice_region] writes nothing before its two reads, its two crops
    and its plot, if asked for, have succeeded: a run that has changed the
    file system has passed all of them. *)
Theorem slice_region_writes_last topo_outfile bathy_outfile bathy_filename
    topo_filename shore_plots (filter : region) (fs : gmap string file) :
  snd (slice_region Topography region topo_read topo_crop topo_extent
         topo_write plot_shores topo_outfile bathy_outfile bathy_filename
         topo_filename shore_plots filter fs) <> fs ->
  exists tf bf topo_file bathy_file bathy_small topo_small,
    fs !! topo_filename = Some tf /\
    fs !! bathy_filename = Some bf /\
    topo_read tf = Ok topo_file /\
    topo_read bf = Ok bathy_file /\
    topo_crop bathy_file filter = Ok bathy_small /\
    topo_crop topo_file (topo_extent bathy_small) = Ok topo_small /\
    (shore_plots = true -> plot_shores topo_small bathy_small = Ok tt).
Proof.
  unfold slice_region, read_topography, io_bind, io_lift, open_r, open_w.
  destruct (fs !! topo_filename) as [tf|]; [|done].
  destruct (topo_read tf) as [topo_file|] eqn:Hrt; [|done].
  destruct (fs !! bathy_filename) as [bf|]; [|done].
  destruct (topo_read bf) as [bathy_file|] eqn:Hrb; [|done].
  destruct (topo_crop bathy_file filter) as [bathy_small|] eqn:Hb; [|done].
  destruct (topo_crop topo_file (topo_extent bathy_small)) as [topo_small|]
    eqn:Ht; [|done].
  intros Hrun. exists tf, bf, topo_file, bathy_file, bathy_small, topo_small.
  do 6 (split; [done|]). intros ->.
  by destruct (plot_shores topo_small bathy_small) as [[]|].
Qed.

(** X21. Given one path for its two outputs, [slice_region] leaves the cut
    of the topography there: the cut of the bathymetry, written first, is
    replaced. *)
Theorem slice_region_same_outfile outfile bathy_filename topo_filename
    (filter : region) (fs : gmap string file) (tf bf : file)
    (topo_file bathy_file bathy_small topo_small : Topography) :
  fs !! topo_filename = Some tf ->
  fs !! bathy_filename = Some bf ->
  topo_read tf = Ok topo_file ->
  topo_read bf = Ok bathy_file ->
  topo_crop bathy_file filter = Ok bathy_small ->
  topo_crop topo_file (topo_extent bathy_small) = Ok topo_small ->
  slice_region Topography region topo_read topo_crop topo_extent topo_write
    plot_shores outfile outfile bathy_filename topo_filename false filter
    fs =
  (Ok tt, <[outfile := topo_write topo_small]> fs).
Proof.
  intros Htf Hbf Hrt Hrb Hcb Hct.
  unfold slice_region, read_topography, io_bind, io_lift, open_r, open_w.
  rewrite Htf, Hrt, Hbf, Hrb, Hcb, Hct. by rewrite insert_insert_eq.
Qed.

End SliceRegionEdges.

Lemma slice_region_same_outfile_witness :
  slice_region profile (nat * nat) profile_read profile_crop profile_extent
    profile_write profile_plot "cut.tt3" "cut.tt3" "etopo.tt3" "srtm.asc"
    false (1, 5) fs_slice =
  (Ok tt,
   <["cut.tt3" := profile_write [(2, "-9999"); (3, "12"); (4, "40")]]>
     fs_slice).
Proof.
  apply (slice_region_same_outfile profile (nat * nat) profile_read
           profile_crop profile_extent profile_write profile_plot
           "cut.tt3" "etopo.tt3" "srtm.asc" (1, 5) fs_slice
           [["0"; "-9999"]; ["1"; "-9999"]; ["2"; "-9999"];
            ["3"; "12"]; ["4"; "40"]; ["5"; "55"]; ["6"; "63"]]
           [["0"; "-900"]; ["2"; "-300"]; ["4"; "35"]; ["6"; "60"]]
           [(0, "-9999"); (1, "-9999"); (2, "-9999"); (3, "12"); (4, "40");
            (5, "55"); (6, "63")]
           [(0, "-900"); (2, "-300"); (4, "35"); (6, "60")]
           [(2, "-300"); (4, "35")]
           [(2, "-9999"); (3, "12"); (4, "40")]); reflexivity.
Defined.

Lemma slice_region_writes_last_witness :
  exists tf bf topo_file bathy_file bathy_small topo_small,
    fs_slice !! "srtm.asc" = Some tf /\
    fs_slice !! "etopo.tt3" = Some bf /\
    profile_read tf = Ok topo_file /\
    profile_read bf = Ok bathy_file /\
    profile_crop bathy_file (1, 5) = Ok bathy_small /\
    profile_crop topo_file (profile_extent bathy_small) = Ok topo_small /\
    (false = true -> profile_plot topo_small bathy_small = Ok tt).
Proof.
  apply (slice_region_writes_last profile (nat * nat) profile_read
           profile_crop profile_extent profile_write profile_plot
           "topo_small.tt3" "bathy_small.tt3" "etopo.tt3" "srtm.asc" false
           (1, 5) fs_slice).
  intros H. apply (f_equal (fun m => m !! "topo_small.tt3")) in H.
  discriminate H.
Defined.

(** ** The points and the values given to griddata *)




